(** * fusebook: a read-only FUSE view of Jupyter notebooks

    Shallow embedding of [fusebook/fusebook.py] and the properties of its
    two classes, [FuseNotebook] (one notebook shown as a directory of
    synthesized files) and [FuseNotebookDir] (the router over a real
    directory tree).

    Conventions of the embedding:
    - a Python [str] is a list of Unicode code points ([list N]);
    - a Python [bytes] is a [list byte];
    - a Python [int] is a [Z]; an index produced by [enumerate] is a [nat];
    - a [dict] is a [gmap]; the [data] mapping of an output, whose iteration
      order matters, is an association list in insertion order;
    - a raised exception is the [Raise] alternative of [result];
    - the operating system, the [nbformat] reader, [mimetypes] (which
      consults the MIME tables of the host) and [base64] are the fields of
      a [World] record, passed explicitly to whatever touches them. *)

From Stdlib Require Import ZArith NArith Strings.String Strings.Ascii Strings.Byte DecimalString SpecFloat.
From Stdlib Require Import Sorting.Sorted DecimalNat.
From stdpp Require Import gmap list.

Local Open Scope Z_scope.

(** ** Python values *)

Abbreviation str := (list N) (only parsing).
Abbreviation bytes := (list byte) (only parsing).

(** Code points of an ASCII literal. *)
Definition lit (s : string) : str :=
  map N_of_ascii (list_ascii_of_string s).

(** [str(n)] for a non-negative integer, as [str.format] prints it. *)
Definition str_of_nat (n : nat) : str :=
  lit (NilEmpty.string_of_uint (Nat.to_uint n)).

Inductive exception : Type :=
  | FuseOSError (errno : Z)
  | OSError (errno : Z)
  | KeyError
  | AttributeError
  | UnicodeEncodeError
  | BinasciiError
  | NotJSONError.

Definition ENOENT : Z := 2.

Inductive result (A : Type) : Type :=
  | Ok (a : A)
  | Raise (e : exception).
Arguments Ok {A} a.
Arguments Raise {A} e.

#[global] Instance result_ret : MRet result := fun _ a => Ok a.
#[global] Instance result_fmap : FMap result := fun _ _ f r =>
  match r with
  | Ok a => Ok (f a)
  | Raise e => Raise e
  end.
#[global] Instance result_bind : MBind result := fun _ _ k r =>
  match r with
  | Ok a => k a
  | Raise e => Raise e
  end.

(** *** [str.encode("utf-8")] *)

Definition byte_of_N (n : N) : byte :=
  match Byte.of_N (n mod 256) with
  | Some b => b
  | None => x00
  end.

(** One code point.  Surrogates (and numbers that are no code point at all)
    cannot be encoded: Python raises [UnicodeEncodeError]. *)
Definition utf8_char (c : N) : option bytes :=
  if (c <? 0x80)%N then Some [byte_of_N c]
  else if (c <? 0x800)%N then
    Some [byte_of_N (N.lor 0xC0 (N.shiftr c 6));
          byte_of_N (N.lor 0x80 (N.land c 0x3F))]
  else if (c <? 0x10000)%N then
    if ((0xD800 <=? c) && (c <=? 0xDFFF))%N then None
    else
      Some [byte_of_N (N.lor 0xE0 (N.shiftr c 12));
            byte_of_N (N.lor 0x80 (N.land (N.shiftr c 6) 0x3F));
            byte_of_N (N.lor 0x80 (N.land c 0x3F))]
  else if (c <=? 0x10FFFF)%N then
    Some [byte_of_N (N.lor 0xF0 (N.shiftr c 18));
          byte_of_N (N.lor 0x80 (N.land (N.shiftr c 12) 0x3F));
          byte_of_N (N.lor 0x80 (N.land (N.shiftr c 6) 0x3F));
          byte_of_N (N.lor 0x80 (N.land c 0x3F))]
  else None.

Fixpoint encode_utf8 (s : str) : result bytes :=
  match s with
  | [] => Ok []
  | c :: s' =>
      match utf8_char c with
      | None => Raise UnicodeEncodeError
      | Some bs =>
          match encode_utf8 s' with
          | Ok rest => Ok (bs ++ rest)
          | Raise e => Raise e
          end
      end
  end.

(** [bytes(s, "ascii")] *)
Fixpoint encode_ascii (s : str) : result bytes :=
  match s with
  | [] => Ok []
  | c :: s' =>
      if (c <? 0x80)%N then
        match encode_ascii s' with
        | Ok rest => Ok (byte_of_N c :: rest)
        | Raise e => Raise e
        end
      else Raise UnicodeEncodeError
  end.

(** *** Slicing: [data[a:b]] with Python's clamping of both bounds *)

Definition slice_index (n i : Z) : Z :=
  if i <? 0 then Z.max (i + n) 0 else Z.min i n.

Definition py_slice {A} (data : list A) (a b : Z) : list A :=
  let n := Z.of_nat (length data) in
  let lo := slice_index n a in
  let hi := slice_index n b in
  take (Z.to_nat (hi - lo)) (drop (Z.to_nat lo) data).

(** [s.endswith(suffix)] *)
Definition endswith (s suffix : str) : bool :=
  bool_decide (length suffix <= length s)%nat &&
  bool_decide (drop (length s - length suffix) s = suffix).

(** *** [sorted] on strings: code point by code point *)

Fixpoint str_ltb (a b : str) : bool :=
  match a, b with
  | _, [] => false
  | [], _ :: _ => true
  | x :: a', y :: b' => (x <? y)%N || ((x =? y)%N && str_ltb a' b')
  end.

Fixpoint insert_sorted (x : str) (l : list str) : list str :=
  match l with
  | [] => [x]
  | y :: l' => if str_ltb y x then y :: insert_sorted x l' else x :: l
  end.

Definition sorted (l : list str) : list str :=
  foldr insert_sorted [] l.

(** [maybe_join = lambda x: "".join(x) if isinstance(x, list) else x] *)
Inductive multiline : Type :=
  | Str (s : str)
  | Lines (l : list str).

Definition maybe_join (x : multiline) : str :=
  match x with
  | Lines l => concat l
  | Str s => s
  end.

(** ** [pathlib]: pure POSIX paths

    The part of [pathlib.PurePosixPath] that the program uses, following
    [pathlib.py] of the Python releases the program runs on (it calls
    [base64.decodestring], which 3.9 removed).  A path is its root
    ([""], ["/"] or ["//"]) and its parts; as in [pathlib], the parts of a
    rooted path start with the root. *)

Module Path.

Definition sep : N := 47.  (* "/" *)
Definition dot : N := 46.  (* "." *)

Record t : Type := mk { _root : str; _parts : list str }.

#[global] Instance t_eq_dec : EqDecision t.
Proof. solve_decision. Defined.

(** [s.split(sep)] *)
Fixpoint split (c : N) (s : str) : list str :=
  match s with
  | [] => [[]]
  | x :: s' =>
      if (x =? c)%N then [] :: split c s'
      else
        match split c s' with
        | h :: r => (x :: h) :: r
        | [] => [[x]]
        end
  end.

(** [s.lstrip(sep)] *)
Fixpoint lstrip (c : N) (s : str) : str :=
  match s with
  | x :: s' => if (x =? c)%N then lstrip c s' else s
  | [] => []
  end.

(** [sep.join(l)] *)
Fixpoint join (c : N) (l : list str) : str :=
  match l with
  | [] => []
  | [x] => x
  | x :: r => x ++ c :: join c r
  end.

(** [s.rfind(c)]: the last index of [c], or -1. *)
Fixpoint rfind (c : N) (s : str) : Z :=
  match s with
  | [] => -1
  | x :: s' =>
      let r := rfind c s' in
      if r <? 0 then (if (x =? c)%N then 0 else -1) else r + 1
  end.

(** [_PosixFlavour.splitroot]: exactly two leading slashes are kept apart. *)
Definition splitroot (part : str) : str * str :=
  match part with
  | x :: _ =>
      if (x =? sep)%N then
        let stripped_part := lstrip sep part in
        if (length part - length stripped_part =? 2)%nat
        then ([sep; sep], stripped_part)
        else ([sep], stripped_part)
      else ([], part)
  | [] => ([], part)
  end.

(** The components of the relative remainder: empty ones and ["."] go. *)
Definition components (rel : str) : list str :=
  filter (fun x => x <> [] /\ x <> [dot]) (split sep rel).

(** [_Flavour.parse_parts]: the arguments are read from the last one
    backwards and reading stops at the first rooted one. *)
Fixpoint parse_parts (args : list str) : str * list str :=
  match args with
  | [] => ([], [])
  | part :: rest =>
      let '(root', parsed') := parse_parts rest in
      match root' with
      | _ :: _ => (root', parsed')
      | [] =>
          match part with
          | [] => (root', parsed')
          | _ :: _ =>
              let '(root, rel) := splitroot part in
              match root with
              | [] => (root, components rel ++ parsed')
              | _ :: _ => (root, root :: components rel ++ parsed')
              end
          end
      end
  end.

(** [Path] applied to its arguments *)
Definition Path (args : list str) : t :=
  let '(root, parts) := parse_parts args in mk root parts.

Definition is_absolute (p : t) : bool :=
  match _root p with [] => false | _ :: _ => true end.

Definition parts (p : t) : list str := _parts p.

(** [p / q] ([join_parsed_parts]): a rooted right operand replaces [p]. *)
Definition truediv (p q : t) : t :=
  match _root q with
  | _ :: _ => q
  | [] => mk (_root p) (_parts p ++ _parts q)
  end.

(** [parts[:-1]] *)
Definition but_last {A} (l : list A) : list A :=
  take (length l - 1)%nat l.

Definition parent (p : t) : t :=
  if bool_decide (length (_parts p) = 1%nat) && is_absolute p then p
  else mk (_root p) (but_last (_parts p)).

Definition name (p : t) : str :=
  if bool_decide (length (_parts p) = if is_absolute p then 1%nat else 0%nat)
  then []
  else List.last (_parts p) [].

Definition suffix (p : t) : str :=
  let name := name p in
  let i := rfind dot name in
  if (0 <? i) && (i <? Z.of_nat (length name) - 1)
  then drop (Z.to_nat i) name
  else [].

(** [str(p)] *)
Definition to_str (p : t) : str :=
  let s :=
    match _root p with
    | _ :: _ => _root p ++ join sep (tail (_parts p))
    | [] => join sep (_parts p)
    end in
  match s with [] => [dot] | _ :: _ => s end.

End Path.

(** ** The notebook document (nbformat 4) *)

Inductive Output : Type :=
  | stream (name : str) (text : multiline)
  | display_data (data : list (str * multiline))
  | execute_result (data : list (str * multiline))
  | error (ename evalue : str) (traceback : list str).

Inductive Cell : Type :=
  | markdown_cell (source : multiline)
  | code_cell (source : multiline) (outputs : list Output)
  | raw_cell (source : multiline).

(** [file_extension] is [node.metadata.language_info.file_extension];
    reading it raises [AttributeError] when the metadata has none. *)
Record NotebookNode : Type := {
  file_extension : option str;
  cells : list Cell
}.

(** ** Attribute records: [os.stat_result] and the dictionaries returned
    by [getattr].  Times are floats; they are only ever copied. *)

Record stat_result : Type := {
  st_atime : spec_float;
  st_ctime : spec_float;
  st_gid : Z;
  st_mode : Z;
  st_mtime : spec_float;
  st_nlink : Z;
  st_size : Z;
  st_uid : Z
}.

Definition S_IFDIR : Z := 0x4000.                            (* 0o040000 *)
Definition S_IFMT (mode : Z) : Z := Z.land mode 0xF000.      (* 0o170000 *)
Definition S_ISDIR (mode : Z) : bool := S_IFMT mode =? S_IFDIR.

(** ** What the program asks of its surroundings *)

Record World : Type := {
  (** [Path(p).lstat()] *)
  os_lstat : str -> result stat_result;
  (** [Path(p).is_file()], [Path(p).is_dir()]: [False] when [stat] finds
      nothing at the path (ENOENT, ENOTDIR); any other error of [stat]
      (EACCES, ENAMETOOLONG, ...) is raised again *)
  os_is_file : str -> result bool;
  os_is_dir : str -> result bool;
  (** names of the children, as [Path(p).iterdir()] yields them *)
  os_listdir : str -> result (list str);
  (** [open(p)], [nbformat.reader.read] and, for documents older than
      format 4, [nbformat.convert] *)
  nb_read : str -> result NotebookNode;
  (** [os.lseek(fh, offset, 0); os.read(fh, length)] *)
  os_pread : Z -> Z -> Z -> result bytes;
  (** [mimetypes.guess_extension(mime)]: [None] for a type it does not know *)
  guess_extension : str -> option str;
  (** [base64.decodestring(b)] *)
  decodestring : bytes -> result bytes
}.

(** ** [class FuseNotebook] *)

Inductive kind : Type := markdown | code | stream_kind | data_kind.

(** What [fnames] keeps next to the kind: the cell, the output, or the pair
    of a MIME type and its payload. *)
Inductive part : Type :=
  | part_cell (c : Cell)
  | part_output (o : Output)
  | part_data (mime : str) (payload : multiline).

Module FuseNotebook.

Record t : Type := {
  root : str;
  rw : bool;
  stat : stat_result;
  fnames : gmap str (kind * part);
  fdata : gmap str bytes;
  node : NotebookNode
}.

(** How [str.format] prints the result of [guess_extension]. *)
Definition format_optional (x : option str) : str :=
  match x with
  | Some s => s
  | None => lit "None"
  end.

Definition is_base64_mime (mime : str) : bool :=
  bool_decide (mime = lit "image/png") ||
  bool_decide (mime = lit "image/jpeg") ||
  bool_decide (mime = lit "application/pdf").

Section Loadnb.

Variable w : World.

(** The two dictionaries, filled side by side. *)
Definition tables : Type := gmap str (kind * part) * gmap str bytes.

Definition store (fname : str) (k : kind) (p : part) (content : bytes)
    (tb : tables) : tables :=
  (<[fname := (k, p)]> (fst tb), <[fname := content]> (snd tb)).

(** [for k, mime in enumerate(output.data)] *)
Fixpoint load_data (i j k : nat) (data : list (str * multiline))
    (tb : tables) : result tables :=
  match data with
  | [] => Ok tb
  | (mime, payload) :: data' =>
      let ext := guess_extension w mime in
      let fname :=
        lit "cell" ++ str_of_nat i ++ lit "_out" ++ str_of_nat j ++
        lit "_data" ++ str_of_nat k ++ format_optional ext in
      content ←
        (if is_base64_mime mime
         then encode_ascii (maybe_join payload) ≫= decodestring w
         else encode_utf8 (maybe_join payload));
      load_data i j (S k) data' (store fname data_kind (part_data mime payload) content tb)
  end.

(** [for j, output in enumerate(cell.outputs)] *)
Fixpoint load_outputs (i j : nat) (outputs : list Output)
    (tb : tables) : result tables :=
  match outputs with
  | [] => Ok tb
  | output :: outputs' =>
      tb' ←
        match output with
        | stream name text =>
            let fname :=
              lit "cell" ++ str_of_nat i ++ lit "_out" ++ str_of_nat j ++
              lit "_" ++ name ++ lit ".txt" in
            content ← encode_utf8 (maybe_join text);
            Ok (store fname stream_kind (part_output output) content tb)
        | display_data data | execute_result data =>
            load_data i j 0 data tb
        | error _ _ _ => Ok tb
        end;
      load_outputs i (S j) outputs' tb'
  end.

(** [for i, cell in enumerate(node.cells)] *)
Fixpoint load_cells (codeext : str) (i : nat) (cs : list Cell)
    (tb : tables) : result tables :=
  match cs with
  | [] => Ok tb
  | cell :: cs' =>
      tb' ←
        match cell with
        | markdown_cell source =>
            let fname := lit "cell" ++ str_of_nat i ++ lit ".md" in
            content ← encode_utf8 (maybe_join source);
            Ok (store fname markdown (part_cell cell) content tb)
        | code_cell source outputs =>
            let fname := lit "cell" ++ str_of_nat i ++ codeext in
            content ← encode_utf8 (maybe_join source);
            load_outputs i 0 outputs
              (store fname code (part_cell cell) content tb)
        | raw_cell _ => Ok tb
        end;
      load_cells codeext (S i) cs' tb'
  end.

(** [FuseNotebook.loadnb], from the decoded document on: the tables it
    fills, starting from the empty ones of [__init__]. *)
Definition loadnb (nd : NotebookNode) : result tables :=
  codeext ←
    match file_extension nd with
    | Some e => Ok e
    | None => Raise AttributeError
    end;
  load_cells codeext 0 (cells nd) (∅, ∅).

(** [FuseNotebook.__init__] *)
Definition __init__ (root : str) (rw : bool) : result t :=
  st ← os_lstat w (Path.to_str (Path.Path [root]));
  nd ← nb_read w root;
  tb ← loadnb nd;
  Ok {| root := root; rw := rw; stat := st;
        fnames := fst tb; fdata := snd tb; node := nd |}.

End Loadnb.

(** [FuseNotebook.readdir] *)
Definition readdir (nb : t) (path : str) : list str :=
  [lit "."; lit ".."] ++ sorted (elements (dom (fnames nb))).

(** [FuseNotebook.getattr] *)
Definition getattr (nb : t) (path : str) : result stat_result :=
  let fname := Path.name (Path.Path [path]) in
  match fnames nb !! fname with
  | Some _ =>
      match fdata nb !! fname with
      | Some content =>
          Ok {| st_atime := st_atime (stat nb);
                st_ctime := st_ctime (stat nb);
                st_gid := st_gid (stat nb);
                st_mode := st_mode (stat nb);
                st_mtime := st_mtime (stat nb);
                st_nlink := st_nlink (stat nb);
                st_size := Z.of_nat (length content);
                st_uid := st_uid (stat nb) |}
      | None => Raise KeyError
      end
  | None => Raise (FuseOSError ENOENT)
  end.

(** [FuseNotebook.read]; the arguments come in the order of the source:
    [length] before [offset]. *)
Definition read (nb : t) (path : str) (length offset : Z) : result bytes :=
  let fname := Path.name (Path.Path [path]) in
  match fnames nb !! fname with
  | Some _ =>
      match fdata nb !! fname with
      | Some data => Ok (py_slice data offset (offset + length))
      | None => Raise KeyError
      end
  | None => Raise (FuseOSError ENOENT)
  end.

End FuseNotebook.

(** ** [class FuseNotebookDir] *)

Module FuseNotebookDir.

(** The first component of what [_classify] returns: ["nbcont"], ["dir"],
    ["nb"], ["file"]; [None] is [None]. *)
Inductive type : Type := nbcont | dir | nb | file.

#[global] Instance type_eq_dec : EqDecision type.
Proof. solve_decision. Defined.

Record t : Type := {
  root : Path.t;
  rw : bool;
  notebooks : gmap str FuseNotebook.t
}.

Definition ipynb : str := lit ".ipynb".

(** [FuseNotebookDir.__init__].  [realpath] is what [Path.resolve] asks of
    the operating system: the absolute, normalized spelling of a path,
    which [resolve] parses into the path it returns. *)
Definition __init__ (realpath : str -> result str) (root : str) (rw : bool)
    : result t :=
  normed ← realpath (Path.to_str (Path.Path [root]));
  Ok {| root := Path.Path [normed]; rw := rw; notebooks := ∅ |}.

Section Operations.

Variable w : World.

Definition is_file (p : Path.t) : result bool := os_is_file w (Path.to_str p).
Definition is_dir (p : Path.t) : result bool := os_is_dir w (Path.to_str p).

(** The real path that a request path stands for. *)
Definition fspath_of (self : t) (path : str) : Path.t :=
  let path := Path.Path [path] in
  let path :=
    if Path.is_absolute path then Path.Path (tail (Path.parts path))
    else path in
  Path.truediv (root self) path.

(** The three examinations come in the order of the source, each only if
    the ones before it did not decide; an exception of any of them ends
    the classification. *)
Definition _classify (self : t) (path : str) : result (option type * str) :=
  let fspath := fspath_of self path in
  match is_file (Path.parent fspath) with
  | Raise e => Raise e
  | Ok parent_is_file =>
      if parent_is_file && bool_decide (Path.suffix (Path.parent fspath) = ipynb)
      then Ok (Some nbcont, Path.to_str (Path.parent fspath))
      else
        match is_dir fspath with
        | Raise e => Raise e
        | Ok true => Ok (Some dir, Path.to_str fspath)
        | Ok false =>
            match is_file fspath with
            | Raise e => Raise e
            | Ok true =>
                if bool_decide (Path.suffix fspath = ipynb)
                then Ok (Some nb, Path.to_str fspath)
                else Ok (Some file, Path.to_str fspath)
            | Ok false => Ok (None, Path.to_str fspath)
            end
        end
  end.

(** Every method returns its outcome and the object as the call leaves
    it: only [notebooks] ever changes. *)
Definition _notebook (self : t) (fspath : str)
    : result FuseNotebook.t * t :=
  match notebooks self !! fspath with
  | Some cached => (Ok cached, self)
  | None =>
      match FuseNotebook.__init__ w fspath (rw self) with
      | Ok new =>
          (Ok new,
           {| root := root self; rw := rw self;
              notebooks := <[fspath := new]> (notebooks self) |})
      | Raise e => (Raise e, self)
      end
  end.

Definition lstat (fspath : str) : result stat_result :=
  os_lstat w (Path.to_str (Path.Path [fspath])).

Definition getattr (self : t) (path : str) : result stat_result * t :=
  match _classify self path with
  | Raise e => (Raise e, self)
  | Ok (Some nbcont, fspath) =>
      let '(r, self') := _notebook self fspath in
      (r ≫= (λ n, FuseNotebook.getattr n path), self')
  | Ok (Some dir, fspath) | Ok (Some file, fspath) =>
      (stat ← lstat fspath;
       Ok {| st_atime := st_atime stat; st_ctime := st_ctime stat;
             st_gid := st_gid stat; st_mode := st_mode stat;
             st_mtime := st_mtime stat; st_nlink := st_nlink stat;
             st_size := st_size stat; st_uid := st_uid stat |},
       self)
  | Ok (Some nb, fspath) =>
      (stat ← lstat fspath;
       Ok {| st_atime := st_atime stat;
             st_ctime := st_ctime stat;
             st_gid := st_gid stat;
             st_mode := Z.lor S_IFDIR 0x1FD;      (* S_IFDIR | 0o775 *)
             st_mtime := st_mtime stat;
             st_nlink := 1;
             st_size := 4096;
             st_uid := st_uid stat |},
       self)
  | Ok (None, _) => (Raise (FuseOSError ENOENT), self)
  end.

(** [readdir] is a generator; this is what iterating it to its end
    gives: the names it yields, or the exception that stops it. *)
Definition readdir (self : t) (path : str) : result (list str) * t :=
  match _classify self path with
  | Raise e => (Raise e, self)
  | Ok (Some dir, fspath) =>
      (children ← os_listdir w (Path.to_str (Path.Path [fspath]));
       Ok ([lit "."; lit ".."] ++ children),
       self)
  | Ok (Some nb, fspath) =>
      let '(r, self') := _notebook self fspath in
      (r ≫= (λ n, Ok (FuseNotebook.readdir n path)), self')
  | Ok _ => (Ok [], self)
  end.

(** [read] returns [None] where the source falls off its end. *)
Definition read (self : t) (path : str) (length offset fh : Z)
    : result (option bytes) * t :=
  match _classify self path with
  | Raise e => (Raise e, self)
  | Ok (Some nbcont, fspath) =>
      let '(r, self') := _notebook self fspath in
      (r ≫= (λ n, FuseNotebook.read n path length offset ≫= (λ b, Ok (Some b))), self')
  | Ok (Some file, fspath) =>
      (os_pread w fh offset length ≫= (λ b, Ok (Some b)), self)
  | Ok _ => (Ok None, self)
  end.

End Operations.

End FuseNotebookDir.

(** ** The classification, in the words of the specification

    A request path is resolved against the real root, and the first rule
    that applies decides: the parent is a notebook file; the path is a
    real directory; the path is a real file, a notebook or not; nothing of
    the kind.  A notebook file is a real file whose last component has the
    suffix [.ipynb], which for [pathlib] takes something in front of the
    dot: a file that is called just [.ipynb] has no suffix.  Where the
    rule in turn cannot be decided, because the examination of the path
    raises, its exception is the outcome. *)

Definition notebook_name (name : str) : Prop :=
  exists stem, stem <> [] /\ name = stem ++ FuseNotebookDir.ipynb.

Definition notebook_file (w : World) (p : Path.t) : Prop :=
  FuseNotebookDir.is_file w p = Ok true /\ notebook_name (Path.name p).

(** Examined, and found to be no notebook file. *)
Definition no_notebook_file (w : World) (p : Path.t) : Prop :=
  FuseNotebookDir.is_file w p = Ok false \/
  FuseNotebookDir.is_file w p = Ok true /\ ~ notebook_name (Path.name p).

Inductive classified (w : World) (self : FuseNotebookDir.t) (path : str)
    : result (option FuseNotebookDir.type * str) -> Prop :=
  | parent_unexamined e :
      let fspath := FuseNotebookDir.fspath_of self path in
      FuseNotebookDir.is_file w (Path.parent fspath) = Raise e ->
      classified w self path (Raise e)
  | notebook_interior :
      let fspath := FuseNotebookDir.fspath_of self path in
      notebook_file w (Path.parent fspath) ->
      classified w self path
        (Ok (Some FuseNotebookDir.nbcont, Path.to_str (Path.parent fspath)))
  | directory_unexamined e :
      let fspath := FuseNotebookDir.fspath_of self path in
      no_notebook_file w (Path.parent fspath) ->
      FuseNotebookDir.is_dir w fspath = Raise e ->
      classified w self path (Raise e)
  | real_directory :
      let fspath := FuseNotebookDir.fspath_of self path in
      no_notebook_file w (Path.parent fspath) ->
      FuseNotebookDir.is_dir w fspath = Ok true ->
      classified w self path (Ok (Some FuseNotebookDir.dir, Path.to_str fspath))
  | file_unexamined e :
      let fspath := FuseNotebookDir.fspath_of self path in
      no_notebook_file w (Path.parent fspath) ->
      FuseNotebookDir.is_dir w fspath = Ok false ->
      FuseNotebookDir.is_file w fspath = Raise e ->
      classified w self path (Raise e)
  | notebook_root :
      let fspath := FuseNotebookDir.fspath_of self path in
      no_notebook_file w (Path.parent fspath) ->
      FuseNotebookDir.is_dir w fspath = Ok false ->
      notebook_file w fspath ->
      classified w self path (Ok (Some FuseNotebookDir.nb, Path.to_str fspath))
  | real_file :
      let fspath := FuseNotebookDir.fspath_of self path in
      no_notebook_file w (Path.parent fspath) ->
      FuseNotebookDir.is_dir w fspath = Ok false ->
      FuseNotebookDir.is_file w fspath = Ok true ->
      ~ notebook_name (Path.name fspath) ->
      classified w self path (Ok (Some FuseNotebookDir.file, Path.to_str fspath))
  | absent :
      let fspath := FuseNotebookDir.fspath_of self path in
      no_notebook_file w (Path.parent fspath) ->
      FuseNotebookDir.is_dir w fspath = Ok false ->
      FuseNotebookDir.is_file w fspath = Ok false ->
      classified w self path (Ok (None, Path.to_str fspath)).

(** ** Invariant of a projection: [fnames] and [fdata] have the same keys *)

Definition aligned (tb : FuseNotebook.tables) : Prop :=
  dom (fst tb) = dom (snd tb).

(** A component of a path: what can stand after a separator and be kept
    by [pathlib] as it is. *)
Definition component (n : str) : Prop :=
  n <> [] /\ n <> [Path.dot] /\ Path.sep ∉ n.


(** Every file name in the table starts with [cell]. *)
Definition cell_prefixed (tb : FuseNotebook.tables) : Prop :=
  forall name, is_Some (fst tb !! name) -> exists rest, name = lit "cell" ++ rest.

(** ** A small world to run the program in

    The directory [/data] holds the notebook [nb.ipynb] (a markdown cell, a
    code cell and its standard output), the notebook [plot.ipynb] (a code
    cell whose result has a MIME type that [mimetypes] does not know), the
    notebook [slash.ipynb] (a code cell that wrote to a stream called
    [a/b]), the file [broken.ipynb] that is no notebook, the plain files
    [notes.txt] and [.ipynb], the directory [subdir], and the directory
    [locked] that may not be searched: to examine anything below it fails
    with EACCES.  None of the notebooks carries a base64 payload, so
    [decodestring] is never reached. *)

Module Example.

Definition title_cell : Cell := markdown_cell (Str (lit "# Title")).
Definition stdout_output : Output := stream (lit "stdout") (Str (lit "1" ++ [10%N])).
Definition print_cell : Cell := code_cell (Str (lit "print(1)")) [stdout_output].

Definition notebook : NotebookNode :=
  {| file_extension := Some (lit ".py"); cells := [title_cell; print_cell] |}.

Definition plot_cell : Cell :=
  code_cell (Str (lit "plot()"))
    [display_data [(lit "application/x-plot", Str (lit "abc"))]].

Definition plot_notebook : NotebookNode :=
  {| file_extension := Some (lit ".py"); cells := [plot_cell] |}.

Definition slash_output : Output := stream (lit "a/b") (Str (lit "hi")).
Definition slash_cell : Cell := code_cell (Str (lit "pass")) [slash_output].

Definition slash_notebook : NotebookNode :=
  {| file_extension := Some (lit ".py"); cells := [slash_cell] |}.

Definition file_stat : stat_result :=
  {| st_atime := S754_finite false 3 29; st_ctime := S754_finite false 3 29;
     st_gid := 100; st_mode := 0x81A4 (* 0o100644 *);
     st_mtime := S754_finite false 3 29; st_nlink := 1; st_size := 1234;
     st_uid := 1000 |}.

Definition dir_stat : stat_result :=
  {| st_atime := S754_finite false 3 29; st_ctime := S754_finite false 3 29;
     st_gid := 100; st_mode := 0x41ED (* 0o040755 *);
     st_mtime := S754_finite false 3 29; st_nlink := 3; st_size := 4096;
     st_uid := 1000 |}.

Definition files : list str :=
  [lit "/data/nb.ipynb"; lit "/data/plot.ipynb"; lit "/data/slash.ipynb";
   lit "/data/broken.ipynb"; lit "/data/notes.txt"; lit "/data/.ipynb"].

Definition dirs : list str :=
  [lit "/data"; lit "/data/subdir"; lit "/data/locked"].

Definition EACCES : Z := 13.

Definition below_locked (p : str) : bool :=
  bool_decide (take 13 p = lit "/data/locked/").

Definition world : World :=
  {| os_lstat := fun p =>
       if bool_decide (p ∈ files) then Ok file_stat
       else if bool_decide (p ∈ dirs) then Ok dir_stat
       else Raise (OSError ENOENT);
     os_is_file := fun p =>
       if below_locked p then Raise (OSError EACCES)
       else Ok (bool_decide (p ∈ files));
     os_is_dir := fun p =>
       if below_locked p then Raise (OSError EACCES)
       else Ok (bool_decide (p ∈ dirs));
     os_listdir := fun p =>
       if bool_decide (p = lit "/data") then
         Ok [lit "nb.ipynb"; lit "plot.ipynb"; lit "slash.ipynb";
             lit "broken.ipynb"; lit "notes.txt"; lit ".ipynb"; lit "subdir";
             lit "locked"]
       else if bool_decide (p = lit "/data/subdir") then Ok []
       else if bool_decide (p = lit "/data/locked") then Raise (OSError EACCES)
       else Raise (OSError ENOENT);
     nb_read := fun p =>
       if bool_decide (p = lit "/data/nb.ipynb") then Ok notebook
       else if bool_decide (p = lit "/data/plot.ipynb") then Ok plot_notebook
       else if bool_decide (p = lit "/data/slash.ipynb") then Ok slash_notebook
       else if bool_decide (p ∈ files) then Raise NotJSONError
       else Raise (OSError ENOENT);
     os_pread := fun _ _ _ => Raise (OSError 9);
     guess_extension := fun mime =>
       if bool_decide (mime = lit "text/plain") then Some (lit ".txt")
       else if bool_decide (mime = lit "image/png") then Some (lit ".png")
       else None;
     decodestring := fun _ => Raise BinasciiError |}.

(** The same place once [broken.ipynb] has been repaired. *)
Definition repaired : World :=
  {| os_lstat := os_lstat world;
     os_is_file := os_is_file world;
     os_is_dir := os_is_dir world;
     os_listdir := os_listdir world;
     nb_read := fun p =>
       if bool_decide (p = lit "/data/broken.ipynb") then Ok notebook
       else nb_read world p;
     os_pread := os_pread world;
     guess_extension := guess_extension world;
     decodestring := decodestring world |}.

(** The projection of [nb.ipynb]. *)
Definition projection : FuseNotebook.t :=
  {| FuseNotebook.root := lit "/data/nb.ipynb";
     FuseNotebook.rw := false;
     FuseNotebook.stat := file_stat;
     FuseNotebook.fnames :=
       {[ lit "cell0.md" := (markdown, part_cell title_cell);
          lit "cell1.py" := (code, part_cell print_cell);
          lit "cell1_out0_stdout.txt" := (stream_kind, part_output stdout_output) ]};
     FuseNotebook.fdata :=
       {[ lit "cell0.md" := list_byte_of_string "# Title";
          lit "cell1.py" := list_byte_of_string "print(1)";
          lit "cell1_out0_stdout.txt" := [x31; x0a] ]};
     FuseNotebook.node := notebook |}.


(** The router mounted on [/data], before any notebook was opened. *)
Definition router : FuseNotebookDir.t :=
  {| FuseNotebookDir.root := Path.Path [lit "/data"];
     FuseNotebookDir.rw := false;
     FuseNotebookDir.notebooks := ∅ |}.

(** A notebook with a lone surrogate in its markdown cell, and one whose
    metadata names no file extension. *)
Definition surrogate_notebook : NotebookNode :=
  {| file_extension := Some (lit ".py");
     cells := [print_cell; markdown_cell (Lines [lit "a"; [0xD800%N]])] |}.

Definition bare_notebook : NotebookNode :=
  {| file_extension := None; cells := [title_cell] |}.

(** The place with [broken.ipynb] replaced by the notebook without an
    extension. *)
Definition bare : World :=
  {| os_lstat := os_lstat world;
     os_is_file := os_is_file world;
     os_is_dir := os_is_dir world;
     os_listdir := os_listdir world;
     nb_read := fun p =>
       if bool_decide (p = lit "/data/broken.ipynb") then Ok bare_notebook
       else nb_read world p;
     os_pread := os_pread world;
     guess_extension := guess_extension world;
     decodestring := decodestring world |}.

(** The router after [nb.ipynb] has been listed. *)
Definition listed : FuseNotebookDir.t :=
  {| FuseNotebookDir.root := Path.Path [lit "/data"];
     FuseNotebookDir.rw := false;
     FuseNotebookDir.notebooks := {[ lit "/data/nb.ipynb" := projection ]} |}.

End Example.

(** ** The names that the walk over a document synthesizes

    Each function numbers what it walks as [enumerate] does, from the
    index it is given. *)

Fixpoint data_names (w : World) (i j k : nat) (data : list (str * multiline))
    : list str :=
  match data with
  | [] => []
  | (mime, _) :: data' =>
      (lit "cell" ++ str_of_nat i ++ lit "_out" ++ str_of_nat j ++
       lit "_data" ++ str_of_nat k ++
       FuseNotebook.format_optional (guess_extension w mime))
      :: data_names w i j (S k) data'
  end.

Definition output_names (w : World) (i j : nat) (output : Output) : list str :=
  match output with
  | stream name _ =>
      [lit "cell" ++ str_of_nat i ++ lit "_out" ++ str_of_nat j ++
       lit "_" ++ name ++ lit ".txt"]
  | display_data data | execute_result data => data_names w i j 0 data
  | error _ _ _ => []
  end.

Fixpoint outputs_names (w : World) (i j : nat) (outputs : list Output)
    : list str :=
  match outputs with
  | [] => []
  | output :: outputs' =>
      output_names w i j output ++ outputs_names w i (S j) outputs'
  end.

Definition cell_names (w : World) (codeext : str) (i : nat) (cell : Cell)
    : list str :=
  match cell with
  | markdown_cell _ => [lit "cell" ++ str_of_nat i ++ lit ".md"]
  | code_cell _ outputs =>
      (lit "cell" ++ str_of_nat i ++ codeext) :: outputs_names w i 0 outputs
  | raw_cell _ => []
  end.

Fixpoint cells_names (w : World) (codeext : str) (i : nat) (cs : list Cell)
    : list str :=
  match cs with
  | [] => []
  | cell :: cs' => cell_names w codeext i cell ++ cells_names w codeext (S i) cs'
  end.

(** ** Notions that the further properties are stated with *)

(** A rooted path starts its parts with its root, as every path that
    [pathlib] parses does. *)
Definition anchored (p : Path.t) : Prop :=
  Path._root p <> [] -> exists rest, Path._parts p = Path._root p :: rest.

(** The order of [sorted], reflexive: [b] is not below [a]. *)
Definition str_le (a b : str) : Prop := str_ltb b a = false.

(** A code point that UTF-8 cannot carry. *)
Definition surrogate (c : N) : Prop := (0xD800 <= c <= 0xDFFF)%N.

(** What holds of every projection that the router has cached: it was
    constructed from the path it is filed under, in the mode of the router,
    in the world as it was then. *)
Definition cache_ok (self : FuseNotebookDir.t) : Prop :=
  forall key projection,
    FuseNotebookDir.notebooks self !! key = Some projection ->
    exists w,
      FuseNotebook.__init__ w key (FuseNotebookDir.rw self) = Ok projection.

(** The states of a router: the one it is constructed in and those that
    its operations leave, the world being free to change between calls. *)
Inductive reachable : FuseNotebookDir.t -> Prop :=
  | reach_init realpath root rw self :
      FuseNotebookDir.__init__ realpath root rw = Ok self ->
      reachable self
  | reach_getattr w self path :
      reachable self ->
      reachable (snd (FuseNotebookDir.getattr w self path))
  | reach_readdir w self path :
      reachable self ->
      reachable (snd (FuseNotebookDir.readdir w self path))
  | reach_read w self path length offset fh :
      reachable self ->
      reachable (snd (FuseNotebookDir.read w self path length offset fh)).

(** The source of a cell that gets a file of its own. *)
Definition encoded_source (cell : Cell) : option multiline :=
  match cell with
  | markdown_cell source | code_cell source _ => Some source
  | raw_cell _ => None
  end.

(** The source of every cell and the text of every stream as one string,
    the form [maybe_join] brings them to. *)
Definition joined (x : multiline) : multiline := Str (maybe_join x).

Definition join_output (o : Output) : Output :=
  match o with
  | stream name text => stream name (joined text)
  | display_data data => display_data (prod_map id joined <$> data)
  | execute_result data => execute_result (prod_map id joined <$> data)
  | error ename evalue traceback => o
  end.

Definition join_cell (c : Cell) : Cell :=
  match c with
  | markdown_cell source => markdown_cell (joined source)
  | code_cell source outputs => code_cell (joined source) (join_output <$> outputs)
  | raw_cell source => raw_cell (joined source)
  end.

Definition join_notebook (nd : NotebookNode) : NotebookNode :=
  {| file_extension := file_extension nd; cells := join_cell <$> cells nd |}.

(** What a call may do to the router: nothing, or add to the cache. *)
Definition grown (self self' : FuseNotebookDir.t) : Prop :=
  FuseNotebookDir.root self' = FuseNotebookDir.root self /\
  FuseNotebookDir.rw self' = FuseNotebookDir.rw self /\
  (forall key projection,
     FuseNotebookDir.notebooks self !! key = Some projection ->
     FuseNotebookDir.notebooks self' !! key = Some projection).

(** Two outcomes of a load that agree on the contents: the same exception,
    or tables with the same [fdata]. *)
Definition same_data (r1 r2 : result FuseNotebook.tables) : Prop :=
  match r1, r2 with
  | Ok tb1, Ok tb2 => snd tb1 = snd tb2
  | Raise e1, Raise e2 => e1 = e2
  | _, _ => False
  end.

(** * Properties *)

(** ** Slices *)

Lemma slice_index_nonneg n i : 0 <= i -> slice_index n i = Z.min i n.
Proof.
  intros Hi. unfold slice_index.
  destruct (Z.ltb_spec i 0) as [Hneg | _]; [lia | reflexivity].
Qed.

(** For bounds that are not negative, a slice is [take] after [drop]. *)
Lemma py_slice_nonneg {A} (data : list A) (offset len : Z) :
  0 <= offset -> 0 <= len ->
  py_slice data offset (offset + len) =
  take (Z.to_nat len) (drop (Z.to_nat offset) data).
Proof.
  intros Hoff Hlen. unfold py_slice.
  rewrite !slice_index_nonneg by lia.
  destruct (Z.le_gt_cases (Z.of_nat (length data)) offset) as [Hpast | Hin].
  - rewrite Z.min_r by lia.
    rewrite !drop_ge by lia. by rewrite !take_nil.
  - rewrite (Z.min_l offset) by lia.
    destruct (Z.le_gt_cases (offset + len) (Z.of_nat (length data))) as [Hfit | Hshort].
    + rewrite Z.min_l by lia. f_equal. lia.
    + rewrite Z.min_r by lia.
      rewrite !take_ge; [reflexivity | |]; rewrite length_drop; lia.
Qed.

Lemma py_slice_whole {A} (data : list A) :
  py_slice data 0 (0 + Z.of_nat (length data)) = data.
Proof.
  rewrite py_slice_nonneg by lia.
  rewrite Nat2Z.id. simpl. apply firstn_all.
Qed.

(** ** The two tables of a projection name the same files *)

Lemma aligned_empty : aligned (∅, ∅).
Proof. unfold aligned. simpl. by rewrite !dom_empty_L. Qed.

Lemma aligned_store fname k p content tb :
  aligned tb -> aligned (FuseNotebook.store fname k p content tb).
Proof.
  unfold aligned, FuseNotebook.store. simpl. intros Htb.
  by rewrite !dom_insert_L, Htb.
Qed.

(** Splits the goal along the outcome of the next fallible step. *)
Ltac step_result :=
  match goal with
  | H : context [mbind _ ?r] |- _ =>
      let E := fresh "E" in
      destruct r eqn:E; simpl in H; try discriminate H
  end.

Lemma load_data_aligned w i j data : forall k tb tb',
  aligned tb -> FuseNotebook.load_data w i j k data tb = Ok tb' -> aligned tb'.
Proof.
  induction data as [| [mime payload] data IH]; intros k tb tb' Htb Hload;
    simpl in Hload.
  - by inversion Hload; subst.
  - step_result. eapply IH; [| exact Hload]. by apply aligned_store.
Qed.

Lemma load_outputs_aligned w i outputs : forall j tb tb',
  aligned tb -> FuseNotebook.load_outputs w i j outputs tb = Ok tb' -> aligned tb'.
Proof.
  induction outputs as [| output outputs IH]; intros j tb tb' Htb Hload;
    simpl in Hload.
  - by inversion Hload; subst.
  - step_result. eapply IH; [| exact Hload].
    destruct output as [name text | data | data |]; simpl in E.
    + step_result. inversion E; subst. by apply aligned_store.
    + by eapply load_data_aligned.
    + by eapply load_data_aligned.
    + by inversion E; subst.
Qed.

Lemma load_cells_aligned w codeext cs : forall i tb tb',
  aligned tb -> FuseNotebook.load_cells w codeext i cs tb = Ok tb' -> aligned tb'.
Proof.
  induction cs as [| cell cs IH]; intros i tb tb' Htb Hload; simpl in Hload.
  - by inversion Hload; subst.
  - step_result. eapply IH; [| exact Hload].
    destruct cell as [source | source outputs | source]; simpl in E.
    + step_result. inversion E; subst. by apply aligned_store.
    + step_result. eapply load_outputs_aligned; [| exact E].
      by apply aligned_store.
    + by inversion E; subst.
Qed.

Lemma loadnb_aligned w nd tb : FuseNotebook.loadnb w nd = Ok tb -> aligned tb.
Proof.
  unfold FuseNotebook.loadnb. intros Hload. step_result.
  eapply load_cells_aligned; [apply aligned_empty | exact Hload].
Qed.

(** Every file name of a constructed projection has its content. *)
Lemma init_content w root rw nb fname :
  FuseNotebook.__init__ w root rw = Ok nb ->
  is_Some (FuseNotebook.fnames nb !! fname) ->
  is_Some (FuseNotebook.fdata nb !! fname).
Proof.
  unfold FuseNotebook.__init__. intros Hinit Hname.
  repeat step_result. inversion Hinit; subst; simpl in *.
  apply loadnb_aligned in E1. unfold aligned in E1.
  apply elem_of_dom. rewrite <- E1. by apply elem_of_dom.
Qed.

(** ** The names of a projection start with [cell] *)

Lemma cell_prefixed_store fname k p content tb :
  (exists rest, fname = lit "cell" ++ rest) ->
  cell_prefixed tb -> cell_prefixed (FuseNotebook.store fname k p content tb).
Proof.
  intros Hfname Htb name. unfold FuseNotebook.store. cbn [fst].
  rewrite lookup_insert. destruct (decide (fname = name)) as [<- | Hne]; [done |].
  apply Htb.
Qed.

Lemma load_data_prefixed w i j data : forall k tb tb',
  cell_prefixed tb -> FuseNotebook.load_data w i j k data tb = Ok tb' ->
  cell_prefixed tb'.
Proof.
  induction data as [| [mime payload] data IH]; intros k tb tb' Htb Hload;
    simpl in Hload.
  - by inversion Hload; subst.
  - step_result. eapply IH; [| exact Hload].
    apply cell_prefixed_store; [by eexists | exact Htb].
Qed.

Lemma load_outputs_prefixed w i outputs : forall j tb tb',
  cell_prefixed tb -> FuseNotebook.load_outputs w i j outputs tb = Ok tb' ->
  cell_prefixed tb'.
Proof.
  induction outputs as [| output outputs IH]; intros j tb tb' Htb Hload;
    simpl in Hload.
  - by inversion Hload; subst.
  - step_result. eapply IH; [| exact Hload].
    destruct output as [name text | data | data |]; simpl in E.
    + step_result. inversion E; subst.
      apply cell_prefixed_store; [by eexists | exact Htb].
    + by eapply load_data_prefixed.
    + by eapply load_data_prefixed.
    + by inversion E; subst.
Qed.

Lemma load_cells_prefixed w codeext cs : forall i tb tb',
  cell_prefixed tb -> FuseNotebook.load_cells w codeext i cs tb = Ok tb' ->
  cell_prefixed tb'.
Proof.
  induction cs as [| cell cs IH]; intros i tb tb' Htb Hload; simpl in Hload.
  - by inversion Hload; subst.
  - step_result. eapply IH; [| exact Hload].
    destruct cell as [source | source outputs | source]; simpl in E.
    + step_result. inversion E; subst.
      apply cell_prefixed_store; [by eexists | exact Htb].
    + step_result. eapply load_outputs_prefixed; [| exact E].
      apply cell_prefixed_store; [by eexists | exact Htb].
    + by inversion E; subst.
Qed.

(** A name of a constructed projection is a component of a path unless it
    holds a separator. *)
Lemma init_component w root rw nb name :
  FuseNotebook.__init__ w root rw = Ok nb ->
  is_Some (FuseNotebook.fnames nb !! name) ->
  Path.sep ∉ name ->
  component name.
Proof.
  unfold FuseNotebook.__init__, FuseNotebook.loadnb. intros Hinit Hname Hsep.
  repeat step_result. inversion Hinit; subst; simpl in *.
  assert (cell_prefixed a1) as Hprefixed.
  { eapply load_cells_prefixed; [| exact E1].
    intros n [entry Hentry]. cbn in Hentry. by rewrite lookup_empty in Hentry. }
  destruct (Hprefixed _ Hname) as [rest ->].
  by repeat split.
Qed.

(** ** Paths *)

Lemma rfind_app c a b :
  0 <= Path.rfind c b ->
  Path.rfind c (a ++ b) = Z.of_nat (length a) + Path.rfind c b.
Proof.
  intros Hfound. induction a as [| x a IH]; simpl.
  - lia.
  - rewrite IH. destruct (Z.ltb_spec (Z.of_nat (length a) + Path.rfind c b) 0); lia.
Qed.

Lemma split_cons c s : exists h r, Path.split c s = h :: r.
Proof.
  destruct s as [| x s]; simpl; [eauto |].
  destruct (x =? c)%N; [eauto |]. destruct (Path.split c s); eauto.
Qed.

Lemma split_app c a b :
  Path.split c (a ++ c :: b) = Path.split c a ++ Path.split c b.
Proof.
  induction a as [| x a IH]; simpl.
  - by rewrite N.eqb_refl.
  - destruct (x =? c)%N; [by rewrite IH |].
    rewrite IH. by destruct (split_cons c a) as (h & r & ->).
Qed.

Lemma split_without c s : c ∉ s -> Path.split c s = [s].
Proof.
  induction s as [| x s IH]; [done |].
  intros Hnotin. apply not_elem_of_cons in Hnotin as [Hne Hnotin]. simpl.
  destruct (N.eqb_spec x c); [congruence |]. by rewrite IH.
Qed.

Lemma components_child d n :
  component n ->
  Path.components (d ++ Path.sep :: n) = Path.components d ++ [n].
Proof.
  intros (Hne & Hdot & Hsep). unfold Path.components.
  rewrite split_app, filter_app, (split_without _ n) by done.
  by rewrite filter_cons_True.
Qed.

Lemma components_single n : component n -> Path.components n = [n].
Proof.
  intros (Hne & Hdot & Hsep). unfold Path.components.
  rewrite split_without by done. by rewrite filter_cons_True.
Qed.

Lemma lstrip_child d n :
  component n ->
  Path.lstrip Path.sep (d ++ Path.sep :: n) = n \/
  exists d', Path.lstrip Path.sep (d ++ Path.sep :: n) = d' ++ Path.sep :: n.
Proof.
  intros (Hne & Hdot & Hsep). induction d as [| x d IH]; simpl.
  - left. destruct n as [| y n]; [done |].
    apply not_elem_of_cons in Hsep as [Hy _]. simpl.
    destruct (N.eqb_spec y Path.sep); [congruence | done].
  - destruct (x =? Path.sep)%N; [exact IH |]. right. by exists (x :: d).
Qed.

Lemma components_lstrip_child d n :
  component n ->
  exists l, Path.components (Path.lstrip Path.sep (d ++ Path.sep :: n)) = l ++ [n].
Proof.
  intros Hn. destruct (lstrip_child d n Hn) as [-> | [d' ->]].
  - exists []. by apply components_single.
  - eexists. by apply components_child.
Qed.

Lemma name_last root pre n :
  (root <> [] -> pre <> []) -> Path.name (Path.mk root (pre ++ [n])) = n.
Proof.
  intros Hpre. unfold Path.name, Path.is_absolute. cbn [Path._root Path._parts].
  rewrite length_app, last_last. cbn [length].
  rewrite bool_decide_eq_false_2; [reflexivity |].
  destruct root; [lia |]. destruct pre; [by destruct Hpre | simpl; lia].
Qed.

Lemma splitroot_cases part :
  Path.splitroot part = ([], part) \/
  exists root, root <> [] /\ Path.splitroot part = (root, Path.lstrip Path.sep part).
Proof.
  unfold Path.splitroot. destruct part as [| x part]; [by left |].
  destruct (x =? Path.sep)%N; [| by left].
  right. destruct (_ =? 2)%nat; eexists; (split; [| reflexivity]); done.
Qed.

Lemma parse_parts_single part :
  part <> [] ->
  Path.parse_parts [part] =
  let '(root, rel) := Path.splitroot part in
  match root with
  | [] => (root, Path.components rel)
  | _ :: _ => (root, root :: Path.components rel)
  end.
Proof.
  intros Hpart. destruct part as [| x part]; [done |].
  cbn [Path.parse_parts]. destruct (Path.splitroot (x :: part)) as [[| r root] rel];
    by rewrite app_nil_r.
Qed.

Lemma Path_child d n :
  component n ->
  exists root pre,
    Path.Path [d ++ Path.sep :: n] = Path.mk root (pre ++ [n]) /\
    (root <> [] -> pre <> []).
Proof.
  intros Hn. unfold Path.Path.
  rewrite parse_parts_single by (by destruct d).
  destruct (splitroot_cases (d ++ Path.sep :: n)) as [-> | (root & Hroot & ->)].
  - rewrite components_child by done. by exists [], (Path.components d).
  - destruct (components_lstrip_child d n Hn) as [l ->].
    destruct root as [| r root]; [done |].
    by exists (r :: root), ((r :: root) :: l).
Qed.

Lemma name_of_child d n :
  component n -> Path.name (Path.Path [d ++ Path.sep :: n]) = n.
Proof.
  intros Hn. destruct (Path_child d n Hn) as (root & pre & -> & Hpre).
  by apply name_last.
Qed.

Lemma splitroot_component n : component n -> Path.splitroot n = ([], n).
Proof.
  intros (Hne & _ & Hsep). destruct n as [| x n]; [done |].
  unfold Path.splitroot. apply not_elem_of_cons in Hsep as [Hx _].
  destruct (N.eqb_spec x Path.sep); [congruence | done].
Qed.



(** The suffix test of [_classify], read on the last component. *)
Lemma suffix_ipynb (p : Path.t) :
  Path.suffix p = FuseNotebookDir.ipynb <-> notebook_name (Path.name p).
Proof.
  unfold Path.suffix, notebook_name.
  set (name := Path.name p). split.
  - destruct (Z.ltb_spec 0 (Path.rfind Path.dot name)) as [Hpos |]; simpl;
      [| discriminate].
    destruct (Z.ltb_spec (Path.rfind Path.dot name) (Z.of_nat (length name) - 1))
      as [Hin |]; [| discriminate].
    intros Hdrop. exists (take (Z.to_nat (Path.rfind Path.dot name)) name). split.
    + intros Hnil. apply (f_equal length) in Hnil.
      rewrite length_take in Hnil. simpl in Hnil. lia.
    + rewrite <- Hdrop. symmetry. apply take_drop.
  - intros (stem & Hstem & ->).
    rewrite rfind_app by (vm_compute; discriminate).
    replace (Path.rfind Path.dot FuseNotebookDir.ipynb) with 0 by reflexivity.
    rewrite length_app.
    replace (length FuseNotebookDir.ipynb) with 6%nat by reflexivity.
    assert (0 < length stem)%nat by (destruct stem; simpl; [done | lia]).
    destruct (Z.ltb_spec 0 (Z.of_nat (length stem) + 0)); [| lia].
    destruct (Z.ltb_spec (Z.of_nat (length stem) + 0)
                (Z.of_nat (length stem + 6) - 1)); [| lia].
    simpl. rewrite Z.add_0_r, Nat2Z.id. apply drop_app_length.
Qed.

(** The test on the parent in [_classify], by its two outcomes. *)
Lemma notebook_file_test w p is_a_file :
  FuseNotebookDir.is_file w p = Ok is_a_file ->
  (is_a_file && bool_decide (Path.suffix p = FuseNotebookDir.ipynb) = true ->
   notebook_file w p) /\
  (is_a_file && bool_decide (Path.suffix p = FuseNotebookDir.ipynb) = false ->
   no_notebook_file w p).
Proof.
  intros Hfile. unfold notebook_file, no_notebook_file. rewrite Hfile.
  destruct is_a_file; cbn [andb].
  - split.
    + intros Hsuffix. apply bool_decide_eq_true in Hsuffix.
      split; [reflexivity | by apply suffix_ipynb].
    + intros Hsuffix. apply bool_decide_eq_false in Hsuffix.
      right. split; [reflexivity |]. intros Hname. by apply Hsuffix, suffix_ipynb.
  - split; [discriminate | by left].
Qed.

Lemma notebook_file_or_not w p :
  notebook_file w p -> no_notebook_file w p -> False.
Proof.
  unfold notebook_file, no_notebook_file. intros [Hfile Hname] [Hno | [_ Hno]];
    [congruence | contradiction].
Qed.

(** A file called [.ipynb] has no suffix. *)
Lemma dotfile_is_no_notebook : ~ notebook_name FuseNotebookDir.ipynb.
Proof.
  intros (stem & Hstem & Heq). apply (f_equal length) in Heq.
  rewrite length_app in Heq. destruct stem; [done | simpl in Heq; lia].
Qed.

(** ** The projection of one notebook *)

(** C1. The notebook made of the markdown cell ["# Title"] and the code
    cell ["print(1)"] with the stream output (stdout, ["1\n"]), whose code
    extension is [".py"], is loaded into exactly three entries:
    [cell0.md] holding [b"# Title"], [cell1.py] holding [b"print(1)"] and
    [cell1_out0_stdout.txt] holding [b"1\n"]; the names are built from the
    positions of the cell and of the output, the contents are the UTF-8
    encodings of the bodies.  This holds whatever the surroundings are. *)
Theorem loadnb_scenario (w : World) :
  FuseNotebook.loadnb w Example.notebook =
  Ok ({[ lit "cell0.md" := (markdown, part_cell Example.title_cell);
         lit "cell1.py" := (code, part_cell Example.print_cell);
         lit "cell1_out0_stdout.txt" :=
           (stream_kind, part_output Example.stdout_output) ]},
      {[ lit "cell0.md" := list_byte_of_string "# Title";
         lit "cell1.py" := list_byte_of_string "print(1)";
         lit "cell1_out0_stdout.txt" := [x31; x0a] ]}).
Proof. vm_compute. reflexivity. Qed.

(** C3, at its failing input.  When [guess_extension] knows no extension
    for the MIME type of a data output, the entry is not named
    [cell0_out0_data0]: [str.format] prints the [None] it is handed, and
    the entry is named [cell0_out0_data0None]. *)
Theorem loadnb_unknown_mime_named_None (w : World) :
  guess_extension w (lit "application/x-plot") = None ->
  exists tb,
    FuseNotebook.loadnb w Example.plot_notebook = Ok tb /\
    snd tb !! lit "cell0_out0_data0None" = Some (list_byte_of_string "abc") /\
    snd tb !! lit "cell0_out0_data0" = None /\
    dom (fst tb) = {[ lit "cell0.py"; lit "cell0_out0_data0None" ]}.
Proof.
  intros Hext. eexists. split.
  - unfold FuseNotebook.loadnb, Example.plot_notebook, Example.plot_cell.
    simpl. rewrite Hext. vm_compute. reflexivity.
  - split; [| split]; [vm_compute; reflexivity ..].
Qed.

Lemma loadnb_unknown_mime_witness :
  exists tb,
    FuseNotebook.loadnb Example.world Example.plot_notebook = Ok tb /\
    snd tb !! lit "cell0_out0_data0None" = Some (list_byte_of_string "abc") /\
    snd tb !! lit "cell0_out0_data0" = None /\
    dom (fst tb) = {[ lit "cell0.py"; lit "cell0_out0_data0None" ]}.
Proof. apply (loadnb_unknown_mime_named_None Example.world). reflexivity. Defined.



Lemma read_present nb path content len offset :
  is_Some (FuseNotebook.fnames nb !! Path.name (Path.Path [path])) ->
  FuseNotebook.fdata nb !! Path.name (Path.Path [path]) = Some content ->
  FuseNotebook.read nb path len offset = Ok (py_slice content offset (offset + len)).
Proof.
  intros [entry Hentry] Hcontent. unfold FuseNotebook.read.
  by rewrite Hentry, Hcontent.
Qed.












(** C10. [getattr] and [read] look at nothing of the request path but its
    last component: two paths with the same last component get the same
    attributes and, for the same offset and length, the same bytes.  So the
    directory in front of a component does not matter. *)
Theorem last_component_only nb :
  (forall path1 path2,
     Path.name (Path.Path [path1]) = Path.name (Path.Path [path2]) ->
     FuseNotebook.getattr nb path1 = FuseNotebook.getattr nb path2 /\
     (forall len offset,
        FuseNotebook.read nb path1 len offset =
        FuseNotebook.read nb path2 len offset)) /\
  (forall dir1 dir2 name,
     component name ->
     FuseNotebook.getattr nb (dir1 ++ Path.sep :: name) =
       FuseNotebook.getattr nb (dir2 ++ Path.sep :: name) /\
     (forall len offset,
        FuseNotebook.read nb (dir1 ++ Path.sep :: name) len offset =
        FuseNotebook.read nb (dir2 ++ Path.sep :: name) len offset)).
Proof.
  assert (forall path1 path2,
     Path.name (Path.Path [path1]) = Path.name (Path.Path [path2]) ->
     FuseNotebook.getattr nb path1 = FuseNotebook.getattr nb path2 /\
     (forall len offset,
        FuseNotebook.read nb path1 len offset =
        FuseNotebook.read nb path2 len offset)) as Hsame.
  { intros path1 path2 Hname. unfold FuseNotebook.getattr, FuseNotebook.read.
    by rewrite Hname. }
  split; [exact Hsame |].
  intros dir1 dir2 name Hname. apply Hsame.
  by rewrite !name_of_child.
Qed.

Lemma last_component_only_witness :
  FuseNotebook.getattr Example.projection (lit "/nb.ipynb/cell0.md") =
  FuseNotebook.getattr Example.projection (lit "/elsewhere/deep/./cell0.md/") /\
  (forall len offset,
     FuseNotebook.read Example.projection (lit "/nb.ipynb/cell0.md") len offset =
     FuseNotebook.read Example.projection (lit "/elsewhere/deep/./cell0.md/") len offset).
Proof.
  apply (proj1 (last_component_only Example.projection)).
  vm_compute. reflexivity.
Defined.

(** ** The router *)

Lemma classify_classified w self path :
  classified w self path (FuseNotebookDir._classify w self path).
Proof.
  unfold FuseNotebookDir._classify.
  set (fspath := FuseNotebookDir.fspath_of self path).
  destruct (FuseNotebookDir.is_file w (Path.parent fspath))
    as [parent_is_file | e] eqn:Hparent; [| by apply parent_unexamined].
  destruct (notebook_file_test _ _ _ Hparent) as [Hyes Hno].
  destruct (parent_is_file && _) eqn:Htest;
    [apply notebook_interior; by apply Hyes |].
  specialize (Hno eq_refl).
  destruct (FuseNotebookDir.is_dir w fspath) as [[] | e] eqn:Hdir;
    [by apply real_directory | | by apply directory_unexamined].
  destruct (FuseNotebookDir.is_file w fspath) as [[] | e] eqn:Hfile;
    [| by apply absent | by apply file_unexamined].
  destruct (decide (Path.suffix fspath = FuseNotebookDir.ipynb))
    as [Hsuffix | Hsuffix].
  - rewrite bool_decide_eq_true_2 by done.
    apply notebook_root; [done | done |].
    split; [done | by apply suffix_ipynb].
  - rewrite bool_decide_eq_false_2 by done.
    apply real_file; [done | done | done |].
    intros Hname. by apply Hsuffix, suffix_ipynb.
Qed.

Lemma classified_functional w self path c1 c2 :
  classified w self path c1 -> classified w self path c2 -> c1 = c2.
Proof.
  intros H1 H2.
  destruct H1; destruct H2; subst fspath; subst fspath0;
    try reflexivity; try congruence;
    try (exfalso; eapply notebook_file_or_not; eassumption);
    unfold notebook_file, no_notebook_file in *; intuition congruence.
Qed.

(** C2, amended.  [_classify] resolves the request path against the real
    root and applies the precedence of the specification, where a notebook
    file is a real file the last component of whose path ends in [.ipynb]
    with something in front of it: the parent is a notebook file
    (notebook-interior, keyed by the parent); else the path is a real
    directory; else it is a real file, notebook-root if a notebook file and
    real-file if not; else it is absent.  An examination that raises
    decides nothing: its exception is raised in place of a class.  With
    the root [/data], a directory, a file [/data/nb.ipynb] and a directory
    [/data/subdir], [/nb.ipynb] is the notebook-root, [/nb.ipynb/cell0.md]
    is notebook-interior with the key [/data/nb.ipynb], and [/subdir] is a
    real directory. *)
Theorem classify_precedence w self :
  (forall path c,
     classified w self path c <-> FuseNotebookDir._classify w self path = c) /\
  (FuseNotebookDir.root self = Path.Path [lit "/data"] ->
   os_is_file w (lit "/data") = Ok false ->
   os_is_file w (lit "/data/nb.ipynb") = Ok true ->
   os_is_dir w (lit "/data/nb.ipynb") = Ok false ->
   os_is_dir w (lit "/data/subdir") = Ok true ->
   FuseNotebookDir._classify w self (lit "/nb.ipynb") =
     Ok (Some FuseNotebookDir.nb, lit "/data/nb.ipynb") /\
   FuseNotebookDir._classify w self (lit "/nb.ipynb/cell0.md") =
     Ok (Some FuseNotebookDir.nbcont, lit "/data/nb.ipynb") /\
   FuseNotebookDir._classify w self (lit "/subdir") =
     Ok (Some FuseNotebookDir.dir, lit "/data/subdir")).
Proof.
  split.
  - intros path c. split.
    + intros Hc. eapply classified_functional; [apply classify_classified | exact Hc].
    + intros <-. apply classify_classified.
  - destruct self as [root rw notebooks].
    destruct w as [lstat isfile isdir listdir nbread pread guess decode].
    simpl. intros -> Hroot Hfile Hnodir Hdir.
    vm_compute in Hroot, Hfile, Hnodir, Hdir.
    split; [| split]; vm_compute.
    + by rewrite Hroot, Hnodir, Hfile.
    + by rewrite Hfile.
    + by rewrite Hroot, Hdir.
Qed.

Lemma classify_precedence_witness :
  FuseNotebookDir._classify Example.world Example.router (lit "/nb.ipynb") =
    Ok (Some FuseNotebookDir.nb, lit "/data/nb.ipynb") /\
  FuseNotebookDir._classify Example.world Example.router (lit "/nb.ipynb/cell0.md") =
    Ok (Some FuseNotebookDir.nbcont, lit "/data/nb.ipynb") /\
  FuseNotebookDir._classify Example.world Example.router (lit "/subdir") =
    Ok (Some FuseNotebookDir.dir, lit "/data/subdir").
Proof.
  apply (proj2 (classify_precedence Example.world Example.router));
    vm_compute; reflexivity.
Defined.

(** In the example, what lies below the directory that may not be searched
    has no class: the error of the examination comes out. *)
Lemma classify_below_locked :
  FuseNotebookDir._classify Example.world Example.router (lit "/locked/x/y") =
  Raise (OSError Example.EACCES).
Proof. vm_compute. reflexivity. Qed.

(** C2 as it was stated fails on a file that is called [.ipynb]: its path
    ends in [.ipynb], its parent is no notebook and it is no directory, and
    yet it is a real-file, not a notebook-root. *)
Lemma classify_dotfile_counterexample :
  ~ (forall w self path,
       let fspath := FuseNotebookDir.fspath_of self path in
       (exists parent_is_file,
          FuseNotebookDir.is_file w (Path.parent fspath) = Ok parent_is_file /\
          parent_is_file &&
            endswith (Path.to_str (Path.parent fspath)) FuseNotebookDir.ipynb = false) ->
       FuseNotebookDir.is_dir w fspath = Ok false ->
       FuseNotebookDir.is_file w fspath = Ok true ->
       endswith (Path.to_str fspath) FuseNotebookDir.ipynb = true ->
       FuseNotebookDir._classify w self path =
       Ok (Some FuseNotebookDir.nb, Path.to_str fspath)).
Proof.
  intros Hclaim.
  specialize (Hclaim Example.world Example.router (lit "/.ipynb")).
  cbn zeta in Hclaim.
  assert (FuseNotebookDir._classify Example.world Example.router (lit "/.ipynb") =
          Ok (Some FuseNotebookDir.file, lit "/data/.ipynb")) as Hcode
    by (vm_compute; reflexivity).
  rewrite Hcode in Hclaim.
  discriminate Hclaim; [exists false; split | ..]; vm_compute; reflexivity.
Qed.

(** C7, at its failing inputs.  For a path that is classified and is
    neither a real directory nor a notebook-root, [readdir] raises nothing:
    the generator falls through both branches and ends at once, so the
    caller gets an empty listing, and the router is left as it was. *)
Theorem readdir_elsewhere_is_empty w self path type key :
  FuseNotebookDir._classify w self path = Ok (type, key) ->
  type <> Some FuseNotebookDir.dir ->
  type <> Some FuseNotebookDir.nb ->
  FuseNotebookDir.readdir w self path = (Ok [], self).
Proof.
  unfold FuseNotebookDir.readdir. intros -> Hdir Hnb.
  destruct type as [[] |]; congruence.
Qed.

Lemma readdir_elsewhere_witness :
  FuseNotebookDir.readdir Example.world Example.router (lit "/nb.ipynb/cell0.md")
    = (Ok [], Example.router) /\
  FuseNotebookDir.readdir Example.world Example.router (lit "/notes.txt")
    = (Ok [], Example.router) /\
  FuseNotebookDir.readdir Example.world Example.router (lit "/nowhere")
    = (Ok [], Example.router).
Proof.
  split; [| split].
  - apply (readdir_elsewhere_is_empty _ _ _ (Some FuseNotebookDir.nbcont)
             (lit "/data/nb.ipynb")); [vm_compute; reflexivity | discriminate ..].
  - apply (readdir_elsewhere_is_empty _ _ _ (Some FuseNotebookDir.file)
             (lit "/data/notes.txt")); [vm_compute; reflexivity | discriminate ..].
  - apply (readdir_elsewhere_is_empty _ _ _ None (lit "/data/nowhere"));
      [vm_compute; reflexivity | discriminate ..].
Defined.

(** A failure to decode is a failure to construct. *)
Lemma init_decode_error w root rw e :
  nb_read w root = Raise e ->
  exists e', FuseNotebook.__init__ w root rw = Raise e'.
Proof.
  intros Hread. unfold FuseNotebook.__init__.
  destruct (os_lstat w _); simpl; [| eauto].
  rewrite Hread. simpl. eauto.
Qed.

(** C8. If the notebook cannot be decoded when its projection is
    constructed, [_notebook] raises and leaves the router, its cache
    included, as it was, so that the next access constructs again, from
    whatever is there then; and once a construction has succeeded, every
    later access to the same path returns that projection from the cache,
    whatever has become of the file. *)
Theorem notebook_cache w self fspath :
  (forall e,
     FuseNotebookDir.notebooks self !! fspath = None ->
     nb_read w fspath = Raise e ->
     (exists e', fst (FuseNotebookDir._notebook w self fspath) = Raise e') /\
     snd (FuseNotebookDir._notebook w self fspath) = self /\
     (forall w',
        fst (FuseNotebookDir._notebook w'
               (snd (FuseNotebookDir._notebook w self fspath)) fspath) =
        FuseNotebook.__init__ w' fspath (FuseNotebookDir.rw self))) /\
  (forall projection self',
     FuseNotebookDir._notebook w self fspath = (Ok projection, self') ->
     FuseNotebookDir.notebooks self' !! fspath = Some projection /\
     (forall w',
        FuseNotebookDir._notebook w' self' fspath = (Ok projection, self'))).
Proof.
  split.
  - intros e Hfresh Hread.
    destruct (init_decode_error w fspath (FuseNotebookDir.rw self) e Hread)
      as [e' Hinit].
    unfold FuseNotebookDir._notebook. rewrite Hfresh, Hinit. simpl.
    split; [eauto |]. split; [reflexivity |].
    intros w'. rewrite Hfresh. by destruct (FuseNotebook.__init__ w' _ _).
  - intros projection self'. unfold FuseNotebookDir._notebook.
    destruct (FuseNotebookDir.notebooks self !! fspath) as [cached |] eqn:Hcache.
    + intros [= -> ->]. split; [exact Hcache |].
      intros w'. by rewrite Hcache.
    + destruct (FuseNotebook.__init__ w fspath _) as [new | e]; [| discriminate].
      intros [= -> <-]. simpl. rewrite lookup_insert_eq.
      split; [reflexivity |]. intros w'. reflexivity.
Qed.

Lemma notebook_cache_witness :
  ((exists e', fst (FuseNotebookDir._notebook Example.world Example.router
                      (lit "/data/broken.ipynb")) = Raise e') /\
   snd (FuseNotebookDir._notebook Example.world Example.router
          (lit "/data/broken.ipynb")) = Example.router /\
   (forall w',
      fst (FuseNotebookDir._notebook w'
             (snd (FuseNotebookDir._notebook Example.world Example.router
                     (lit "/data/broken.ipynb"))) (lit "/data/broken.ipynb")) =
      FuseNotebook.__init__ w' (lit "/data/broken.ipynb")
        (FuseNotebookDir.rw Example.router))) /\
  (FuseNotebookDir.notebooks
     (snd (FuseNotebookDir._notebook Example.world Example.router
             (lit "/data/nb.ipynb"))) !! lit "/data/nb.ipynb"
     = Some Example.projection /\
   (forall w',
      FuseNotebookDir._notebook w'
        (snd (FuseNotebookDir._notebook Example.world Example.router
                (lit "/data/nb.ipynb"))) (lit "/data/nb.ipynb") =
      (Ok Example.projection,
       snd (FuseNotebookDir._notebook Example.world Example.router
              (lit "/data/nb.ipynb"))))).
Proof.
  split.
  - apply (proj1 (notebook_cache Example.world Example.router
                    (lit "/data/broken.ipynb")) NotJSONError);
      vm_compute; reflexivity.
  - apply (proj2 (notebook_cache Example.world Example.router
                    (lit "/data/nb.ipynb"))).
    vm_compute. reflexivity.
Defined.

(** In the example, [broken.ipynb] fails to load and leaves no trace; once
    the file is repaired the same access loads it. *)
Lemma retry_after_repair :
  let broken := lit "/data/broken.ipynb" in
  let after_failure := snd (FuseNotebookDir._notebook Example.world Example.router broken) in
  fst (FuseNotebookDir._notebook Example.world Example.router broken) = Raise NotJSONError /\
  exists projection,
    fst (FuseNotebookDir._notebook Example.repaired after_failure broken) = Ok projection /\
    FuseNotebook.fdata projection = FuseNotebook.fdata Example.projection.
Proof.
  split; [vm_compute; reflexivity |].
  eexists. split; vm_compute; reflexivity.
Qed.

(** C9. For a path classified as notebook-root whose real file can be
    examined, [getattr] returns the attributes of a directory: the mode is
    [S_IFDIR | 0o775], the size is 4096, one block, the link count is 1,
    and the owner, the group and the three times are those of the real
    notebook file.  The router is left as it was. *)
Theorem getattr_notebook_root w self path fspath st :
  FuseNotebookDir._classify w self path = Ok (Some FuseNotebookDir.nb, fspath) ->
  FuseNotebookDir.lstat w fspath = Ok st ->
  exists attrs,
    FuseNotebookDir.getattr w self path = (Ok attrs, self) /\
    S_ISDIR (st_mode attrs) = true /\
    st_mode attrs = 0x41FD (* 0o040775 *) /\
    st_size attrs = 4096 /\
    st_nlink attrs = 1 /\
    st_uid attrs = st_uid st /\
    st_gid attrs = st_gid st /\
    st_atime attrs = st_atime st /\
    st_ctime attrs = st_ctime st /\
    st_mtime attrs = st_mtime st.
Proof.
  intros Hclass Hstat. unfold FuseNotebookDir.getattr.
  rewrite Hclass, Hstat. simpl. eexists. split; [reflexivity |].
  simpl. repeat split; reflexivity.
Qed.

Lemma getattr_notebook_root_witness :
  exists attrs,
    FuseNotebookDir.getattr Example.world Example.router (lit "/nb.ipynb")
      = (Ok attrs, Example.router) /\
    S_ISDIR (st_mode attrs) = true /\
    st_mode attrs = 0x41FD /\
    st_size attrs = 4096 /\
    st_nlink attrs = 1 /\
    st_uid attrs = st_uid Example.file_stat /\
    st_gid attrs = st_gid Example.file_stat /\
    st_atime attrs = st_atime Example.file_stat /\
    st_ctime attrs = st_ctime Example.file_stat /\
    st_mtime attrs = st_mtime Example.file_stat.
Proof.
  apply (getattr_notebook_root Example.world Example.router (lit "/nb.ipynb")
           (lit "/data/nb.ipynb") Example.file_stat);
    vm_compute; reflexivity.
Defined.

(** * Further properties *)

Local Arguments lit : simpl never.
Local Arguments str_of_nat : simpl never.

(** ** The names of a namespace *)

Lemma dom_store fname k p content tb :
  dom (fst (FuseNotebook.store fname k p content tb)) = dom (fst tb) ∪ {[fname]}.
Proof.
  unfold FuseNotebook.store. cbn [fst]. rewrite dom_insert_L. apply (comm_L (∪)).
Qed.

Lemma load_data_dom w i j data : forall k tb tb',
  FuseNotebook.load_data w i j k data tb = Ok tb' ->
  dom (fst tb') = dom (fst tb) ∪ list_to_set (data_names w i j k data).
Proof.
  induction data as [| [mime payload] data IH]; intros k tb tb' Hload;
    simpl in Hload.
  - inversion Hload; subst. cbn [data_names list_to_set].
    by rewrite (right_id_L ∅ (∪)).
  - step_result. apply IH in Hload. rewrite Hload, dom_store.
    cbn [data_names list_to_set]. by rewrite (assoc_L (∪)).
Qed.

Lemma load_outputs_dom w i outputs : forall j tb tb',
  FuseNotebook.load_outputs w i j outputs tb = Ok tb' ->
  dom (fst tb') = dom (fst tb) ∪ list_to_set (outputs_names w i j outputs).
Proof.
  induction outputs as [| output outputs IH]; intros j tb tb' Hload;
    simpl in Hload.
  - inversion Hload; subst. cbn [outputs_names list_to_set].
    by rewrite (right_id_L ∅ (∪)).
  - step_result. apply IH in Hload. rewrite Hload.
    cbn [outputs_names]. rewrite list_to_set_app_L, (assoc_L (∪)). f_equal.
    destruct output as [name text | data | data |]; simpl in E.
    + step_result. inversion E; subst. rewrite dom_store.
      cbn [output_names list_to_set]. by rewrite (right_id_L ∅ (∪)).
    + apply load_data_dom in E. exact E.
    + apply load_data_dom in E. exact E.
    + inversion E; subst. cbn [output_names list_to_set].
      by rewrite (right_id_L ∅ (∪)).
Qed.

Lemma load_cells_dom w codeext cs : forall i tb tb',
  FuseNotebook.load_cells w codeext i cs tb = Ok tb' ->
  dom (fst tb') = dom (fst tb) ∪ list_to_set (cells_names w codeext i cs).
Proof.
  induction cs as [| cell cs IH]; intros i tb tb' Hload; simpl in Hload.
  - inversion Hload; subst. cbn [cells_names list_to_set].
    by rewrite (right_id_L ∅ (∪)).
  - step_result. apply IH in Hload. rewrite Hload.
    cbn [cells_names]. rewrite list_to_set_app_L, (assoc_L (∪)). f_equal.
    destruct cell as [source | source outputs | source]; simpl in E.
    + step_result. inversion E; subst. rewrite dom_store.
      cbn [cell_names list_to_set]. by rewrite (right_id_L ∅ (∪)).
    + step_result. apply load_outputs_dom in E. rewrite E, dom_store.
      cbn [cell_names list_to_set]. by rewrite (assoc_L (∪)).
    + inversion E; subst. cbn [cell_names list_to_set].
      by rewrite (right_id_L ∅ (∪)).
Qed.

Lemma loadnb_dom w nd tb :
  FuseNotebook.loadnb w nd = Ok tb ->
  exists codeext,
    file_extension nd = Some codeext /\
    dom (fst tb) = list_to_set (cells_names w codeext 0 (cells nd)).
Proof.
  unfold FuseNotebook.loadnb. intros Hload.
  destruct (file_extension nd) as [codeext |]; simpl in Hload; [| discriminate].
  exists codeext. split; [reflexivity |].
  apply load_cells_dom in Hload. cbn [fst] in Hload.
  by rewrite dom_empty_L, (left_id_L ∅ (∪)) in Hload.
Qed.

(** X1. The names of a loaded namespace, in both of its tables, are exactly
    the names that the naming scheme gives to the cells and outputs of the
    document: nothing is left out and nothing else is there. *)
Theorem loadnb_names w nd tb name :
  FuseNotebook.loadnb w nd = Ok tb ->
  exists codeext,
    file_extension nd = Some codeext /\
    (is_Some (fst tb !! name) <-> name ∈ cells_names w codeext 0 (cells nd)) /\
    (is_Some (snd tb !! name) <-> name ∈ cells_names w codeext 0 (cells nd)).
Proof.
  intros Hload. pose proof (loadnb_aligned _ _ _ Hload) as Haligned.
  destruct (loadnb_dom _ _ _ Hload) as (codeext & Hext & Hdom).
  exists codeext. split; [exact Hext |].
  unfold aligned in Haligned.
  rewrite <- !elem_of_dom, <- Haligned, Hdom, elem_of_list_to_set. tauto.
Qed.

Lemma loadnb_names_witness :
  exists codeext,
    file_extension Example.notebook = Some codeext /\
    (is_Some (FuseNotebook.fnames Example.projection !! lit "cell1.py") <->
     lit "cell1.py" ∈ cells_names Example.world codeext 0 (cells Example.notebook)) /\
    (is_Some (FuseNotebook.fdata Example.projection !! lit "cell1.py") <->
     lit "cell1.py" ∈ cells_names Example.world codeext 0 (cells Example.notebook)).
Proof.
  apply (loadnb_names Example.world Example.notebook
           (FuseNotebook.fnames Example.projection,
            FuseNotebook.fdata Example.projection)).
  vm_compute. reflexivity.
Defined.

Lemma str_ltb_asym a : forall b, str_ltb a b = true -> str_ltb b a = false.
Proof.
  induction a as [| x a IH]; intros [| y b]; simpl; try done.
  intros Hlt. apply orb_true_iff in Hlt as [Hlt | Hlt].
  - apply N.ltb_lt in Hlt.
    destruct (N.ltb_spec y x); [lia |].
    destruct (N.eqb_spec y x); [lia | done].
  - apply andb_true_iff in Hlt as [Heq Hlt]. apply N.eqb_eq in Heq. subst y.
    rewrite N.ltb_irrefl, N.eqb_refl. simpl. by apply IH.
Qed.

Lemma insert_sorted_perm x l : insert_sorted x l ≡ₚ x :: l.
Proof.
  induction l as [| y l IH]; simpl; [done |].
  destruct (str_ltb y x); [| done].
  rewrite IH. apply Permutation_swap.
Qed.

Lemma sorted_perm l : sorted l ≡ₚ l.
Proof.
  induction l as [| x l IH]; simpl; [done |].
  unfold sorted in IH. by rewrite insert_sorted_perm, IH.
Qed.

Lemma insert_sorted_hdrel y x l :
  str_le y x -> HdRel str_le y l -> HdRel str_le y (insert_sorted x l).
Proof.
  intros Hyx Hhd. destruct l as [| z l]; simpl; [by constructor |].
  destruct (str_ltb z x); constructor; [by inversion Hhd | done].
Qed.

Lemma insert_sorted_sorted x l :
  Sorted str_le l -> Sorted str_le (insert_sorted x l).
Proof.
  induction 1 as [| y l Hsorted IH Hhd]; simpl.
  - by repeat constructor.
  - destruct (str_ltb y x) eqn:Hlt.
    + constructor; [exact IH |].
      apply insert_sorted_hdrel; [| exact Hhd].
      by apply str_ltb_asym.
    + constructor; [by constructor |]. by constructor.
Qed.

Lemma sorted_sorted l : Sorted str_le (sorted l).
Proof.
  induction l as [| x l IH]; simpl; [constructor |].
  by apply insert_sorted_sorted.
Qed.

(** X2. The listing of a projection is [.], [..] and then the names of the
    namespace, each once, in ascending order of their code points. *)
Theorem readdir_listing nb path :
  exists names,
    FuseNotebook.readdir nb path = lit "." :: lit ".." :: names /\
    Sorted str_le names /\
    NoDup names /\
    (forall name, name ∈ names <-> is_Some (FuseNotebook.fnames nb !! name)).
Proof.
  exists (sorted (elements (dom (FuseNotebook.fnames nb)))).
  split; [reflexivity |]. split; [apply sorted_sorted |]. split.
  - rewrite sorted_perm. apply NoDup_elements.
  - intros name. rewrite sorted_perm, elem_of_elements. apply elem_of_dom.
Qed.

Lemma init_loadnb w root rw nb :
  FuseNotebook.__init__ w root rw = Ok nb ->
  FuseNotebook.loadnb w (FuseNotebook.node nb) =
    Ok (FuseNotebook.fnames nb, FuseNotebook.fdata nb) /\
  nb_read w root = Ok (FuseNotebook.node nb) /\
  FuseNotebook.root nb = root /\ FuseNotebook.rw nb = rw.
Proof.
  unfold FuseNotebook.__init__. intros Hinit.
  repeat step_result. inversion Hinit; subst; cbn.
  by destruct a1.
Qed.





(** ** Sources that cannot be encoded *)

Lemma utf8_char_surrogate c : surrogate c -> utf8_char c = None.
Proof.
  unfold surrogate, utf8_char. intros [Hlo Hhi].
  destruct (N.ltb_spec c 0x80); [lia |].
  destruct (N.ltb_spec c 0x800); [lia |].
  destruct (N.ltb_spec c 0x10000); [| lia].
  destruct (N.leb_spec 0xD800 c); [| lia].
  destruct (N.leb_spec c 0xDFFF); [done | lia].
Qed.

Lemma encode_utf8_raises s :
  forall e, encode_utf8 s = Raise e -> e = UnicodeEncodeError.
Proof.
  induction s as [| c s IH]; intros e; simpl; [done |].
  destruct (utf8_char c); [| by intros [= <-]].
  destruct (encode_utf8 s); [done |]. intros [= <-]. by apply IH.
Qed.

Lemma encode_utf8_surrogate s c :
  c ∈ s -> surrogate c -> encode_utf8 s = Raise UnicodeEncodeError.
Proof.
  intros Hin Hc. induction s as [| x s IH]; [by apply elem_of_nil in Hin |].
  simpl. apply elem_of_cons in Hin as [<- | Hin].
  - by rewrite utf8_char_surrogate.
  - destruct (utf8_char x); [| done]. by rewrite IH.
Qed.

Lemma load_cells_surrogate w codeext cs : forall i n tb cell source c,
  cs !! n = Some cell ->
  encoded_source cell = Some source ->
  c ∈ maybe_join source -> surrogate c ->
  exists e, FuseNotebook.load_cells w codeext i cs tb = Raise e.
Proof.
  induction cs as [| x cs IH]; intros i n tb cell source c Hn Hsrc Hin Hc;
    [done |].
  destruct n as [| n].
  - inversion Hn; subst x. cbn [FuseNotebook.load_cells].
    destruct cell as [src | src outputs | src]; inversion Hsrc; subst src;
      rewrite (encode_utf8_surrogate _ c) by done; simpl; eauto.
  - cbn [FuseNotebook.load_cells].
    match goal with |- context [mbind _ ?r] => destruct r as [tb' | e] end;
      simpl; [| eauto].
    by eapply (IH (S i) n).
Qed.

(** X4. A lone surrogate in the source of a markdown or a code cell makes
    the whole load fail: no namespace comes out of it, whatever else the
    document holds. *)
Theorem loadnb_surrogate w nd i cell source c :
  cells nd !! i = Some cell ->
  encoded_source cell = Some source ->
  c ∈ maybe_join source ->
  surrogate c ->
  exists e, FuseNotebook.loadnb w nd = Raise e.
Proof.
  intros Hi Hsrc Hin Hc. unfold FuseNotebook.loadnb.
  destruct (file_extension nd) as [codeext |]; simpl; [| eauto].
  by eapply load_cells_surrogate.
Qed.

Lemma loadnb_surrogate_witness :
  exists e, FuseNotebook.loadnb Example.world Example.surrogate_notebook = Raise e.
Proof.
  apply (loadnb_surrogate Example.world Example.surrogate_notebook 1
           (markdown_cell (Lines [lit "a"; [0xD800%N]]))
           (Lines [lit "a"; [0xD800%N]]) 0xD800%N).
  - reflexivity.
  - reflexivity.
  - apply (bool_decide_unpack _). vm_compute. reflexivity.
  - unfold surrogate. lia.
Defined.

(** ** Reading in pieces *)

(** X5. Two reads that follow one another give, put together, what one
    read of both lengths gives: a file read in chunks is the file. *)
Theorem read_chunks w root rw nb path offset len1 len2 :
  FuseNotebook.__init__ w root rw = Ok nb ->
  is_Some (FuseNotebook.fnames nb !! Path.name (Path.Path [path])) ->
  0 <= offset -> 0 <= len1 -> 0 <= len2 ->
  exists first second,
    FuseNotebook.read nb path len1 offset = Ok first /\
    FuseNotebook.read nb path len2 (offset + len1) = Ok second /\
    FuseNotebook.read nb path (len1 + len2) offset = Ok (first ++ second).
Proof.
  intros Hinit Hname Hoff Hlen1 Hlen2.
  destruct (init_content _ _ _ _ _ Hinit Hname) as [content Hcontent].
  rewrite !(read_present _ _ content) by assumption.
  rewrite !py_slice_nonneg by lia.
  eexists _, _. split; [reflexivity |]. split; [reflexivity |]. f_equal.
  rewrite !Z2Nat.inj_add by lia.
  rewrite <- drop_drop. by rewrite take_take_drop.
Qed.

Lemma read_chunks_witness :
  exists first second,
    FuseNotebook.read Example.projection (lit "/nb.ipynb/cell1.py") 3 2 = Ok first /\
    FuseNotebook.read Example.projection (lit "/nb.ipynb/cell1.py") 100 (2 + 3)
      = Ok second /\
    FuseNotebook.read Example.projection (lit "/nb.ipynb/cell1.py") (3 + 100) 2
      = Ok (first ++ second).
Proof.
  apply (read_chunks Example.world (lit "/data/nb.ipynb") false).
  - vm_compute. reflexivity.
  - vm_compute. eauto.
  - lia.
  - lia.
  - lia.
Defined.

(** ** Sources as lists of lines or as one string *)

Lemma same_data_store fname k1 p1 k2 p2 content tb1 tb2 :
  snd tb1 = snd tb2 ->
  snd (FuseNotebook.store fname k1 p1 content tb1) =
  snd (FuseNotebook.store fname k2 p2 content tb2).
Proof. unfold FuseNotebook.store. cbn [snd]. by intros ->. Qed.

Lemma load_data_joined w i j data : forall k tb1 tb2,
  snd tb1 = snd tb2 ->
  same_data (FuseNotebook.load_data w i j k data tb1)
            (FuseNotebook.load_data w i j k (prod_map id joined <$> data) tb2).
Proof.
  induction data as [| [mime payload] data IH]; intros k tb1 tb2 Htb;
    cbn [fmap list_fmap FuseNotebook.load_data prod_map fst snd id joined maybe_join].
  - exact Htb.
  - destruct (if FuseNotebook.is_base64_mime mime
              then encode_ascii (maybe_join payload) ≫= decodestring w
              else encode_utf8 (maybe_join payload)) as [content | e];
      cbn [mbind result_bind]; [| reflexivity].
    apply IH. by apply same_data_store.
Qed.

Lemma load_outputs_joined w i outputs : forall j tb1 tb2,
  snd tb1 = snd tb2 ->
  same_data (FuseNotebook.load_outputs w i j outputs tb1)
            (FuseNotebook.load_outputs w i j (join_output <$> outputs) tb2).
Proof.
  induction outputs as [| output outputs IH]; intros j tb1 tb2 Htb;
    cbn [fmap list_fmap FuseNotebook.load_outputs].
  - exact Htb.
  - destruct output as [name text | data | data |];
      cbn [join_output joined maybe_join].
    + destruct (encode_utf8 (maybe_join text)) as [content | e];
        cbn [mbind result_bind]; [| reflexivity].
      apply IH. by apply same_data_store.
    + pose proof (load_data_joined w i j data 0 tb1 tb2 Htb) as Hdata.
      destruct (FuseNotebook.load_data w i j 0 data tb1) as [tb1' | e1],
               (FuseNotebook.load_data w i j 0 (prod_map id joined <$> data) tb2)
                 as [tb2' | e2]; cbn [mbind result_bind]; try done.
      by apply IH.
    + pose proof (load_data_joined w i j data 0 tb1 tb2 Htb) as Hdata.
      destruct (FuseNotebook.load_data w i j 0 data tb1) as [tb1' | e1],
               (FuseNotebook.load_data w i j 0 (prod_map id joined <$> data) tb2)
                 as [tb2' | e2]; cbn [mbind result_bind]; try done.
      by apply IH.
    + cbn [mbind result_bind]. by apply IH.
Qed.

Lemma load_cells_joined w codeext cs : forall i tb1 tb2,
  snd tb1 = snd tb2 ->
  same_data (FuseNotebook.load_cells w codeext i cs tb1)
            (FuseNotebook.load_cells w codeext i (join_cell <$> cs) tb2).
Proof.
  induction cs as [| cell cs IH]; intros i tb1 tb2 Htb;
    cbn [fmap list_fmap FuseNotebook.load_cells].
  - exact Htb.
  - destruct cell as [source | source outputs | source];
      cbn [join_cell joined maybe_join].
    + destruct (encode_utf8 (maybe_join source)) as [content | e];
        cbn [mbind result_bind]; [| reflexivity].
      apply IH. by apply same_data_store.
    + destruct (encode_utf8 (maybe_join source)) as [content | e];
        cbn [mbind result_bind]; [| reflexivity].
      pose proof (load_outputs_joined w i outputs 0
                    (FuseNotebook.store (lit "cell" ++ str_of_nat i ++ codeext)
                       code (part_cell (code_cell source outputs)) content tb1)
                    (FuseNotebook.store (lit "cell" ++ str_of_nat i ++ codeext)
                       code (part_cell (code_cell (Str (maybe_join source))
                                          (join_output <$> outputs))) content tb2)
                    (same_data_store _ _ _ _ _ _ _ _ Htb)) as Houtputs.
      destruct (FuseNotebook.load_outputs w i 0 outputs _) as [tb1' | e1],
               (FuseNotebook.load_outputs w i 0 (join_output <$> outputs) _)
                 as [tb2' | e2]; cbn [mbind result_bind]; try done.
      by apply IH.
    + cbn [mbind result_bind]. by apply IH.
Qed.

(** X6. The contents of the files do not depend on how the document
    spells its texts: joining every source, stream text and payload that
    is a list of lines into one string beforehand changes neither the
    names nor the bytes of the namespace, nor the exception if the load
    fails. *)
Theorem loadnb_joined w nd :
  snd <$> FuseNotebook.loadnb w (join_notebook nd) =
  snd <$> FuseNotebook.loadnb w nd.
Proof.
  unfold FuseNotebook.loadnb, join_notebook. cbn [file_extension cells].
  destruct (file_extension nd) as [codeext |]; cbn [mbind result_bind];
    [| reflexivity].
  pose proof (load_cells_joined w codeext (cells nd) 0 (∅, ∅) (∅, ∅) eq_refl)
    as Hsame.
  destruct (FuseNotebook.load_cells w codeext 0 (cells nd) _) as [tb1 | e1],
           (FuseNotebook.load_cells w codeext 0 (join_cell <$> cells nd) _)
             as [tb2 | e2]; cbn in *; try done; congruence.
Qed.

(** ** Request paths under the real root *)

Lemma split_no_sep c s : Forall (fun x => c ∉ x) (Path.split c s).
Proof.
  induction s as [| x s IH]; simpl.
  - constructor; [apply not_elem_of_nil | constructor].
  - destruct (N.eqb_spec x c) as [-> | Hne].
    + constructor; [apply not_elem_of_nil | exact IH].
    + destruct (Path.split c s) as [| h r].
      * constructor; [| constructor].
        intros Hin. apply list_elem_of_singleton in Hin. congruence.
      * inversion IH; subst. constructor; [| done].
        intros Hin. apply elem_of_cons in Hin as [Heq | Hin]; congruence.
Qed.

Lemma components_component s : Forall component (Path.components s).
Proof.
  unfold Path.components. apply Forall_forall. intros x Hx.
  apply list_elem_of_filter in Hx as [[Hne Hdot] Hx].
  pose proof (split_no_sep Path.sep s) as Hsplit.
  rewrite Forall_forall in Hsplit. by repeat split; [.. | apply Hsplit].
Qed.

Lemma lstrip_no_sep n : Path.sep ∉ n -> Path.lstrip Path.sep n = n.
Proof.
  destruct n as [| x n]; [done |]. intros Hsep. simpl.
  apply not_elem_of_cons in Hsep as [Hx _].
  destruct (N.eqb_spec x Path.sep); [congruence | done].
Qed.

(** Parsing components one by one gives the relative path of them. *)
Lemma parse_parts_components l :
  Forall component l -> Path.parse_parts l = ([], l).
Proof.
  induction 1 as [| n l Hn Hl IH]; [done |].
  cbn [Path.parse_parts]. rewrite IH.
  destruct n as [| x n'] eqn:Heq; [by destruct Hn |]. rewrite <- Heq in *.
  rewrite splitroot_component by done.
  by rewrite components_single.
Qed.

Lemma splitroot_relative part :
  Path.splitroot part = ([], part) /\ Path.lstrip Path.sep part = part \/
  exists root, root <> [] /\ Path.splitroot part = (root, Path.lstrip Path.sep part).
Proof.
  unfold Path.splitroot. destruct part as [| x part]; [by left |].
  destruct (N.eqb_spec x Path.sep) as [-> | Hne].
  - right. destruct (_ =? 2)%nat; eexists; (split; [| reflexivity]); done.
  - left. split; [done |]. simpl. destruct (N.eqb_spec x Path.sep); congruence.
Qed.

Lemma Path_single path :
  path <> [] ->
  Path.Path [path] = Path.mk [] (Path.components path) /\
    Path.lstrip Path.sep path = path \/
  exists r root,
    Path.Path [path] =
    Path.mk (r :: root) ((r :: root) :: Path.components (Path.lstrip Path.sep path)).
Proof.
  intros Hne. unfold Path.Path. rewrite parse_parts_single by done.
  destruct (splitroot_relative path) as [[-> ->] | (root & Hroot & ->)].
  - by left.
  - right. destruct root as [| r root]; [done |]. by exists r, root.
Qed.

(** The real path of a request: the parts of the real root, then the
    components of the request, whether or not it starts with separators. *)
Lemma fspath_of_parts self path :
  FuseNotebookDir.fspath_of self path =
  Path.mk (Path._root (FuseNotebookDir.root self))
    (Path._parts (FuseNotebookDir.root self) ++
     Path.components (Path.lstrip Path.sep path)).
Proof.
  unfold FuseNotebookDir.fspath_of.
  destruct (decide (path = [])) as [-> | Hne]; [reflexivity |].
  destruct (Path_single path Hne) as [[-> ->] | (r & root & ->)].
  - reflexivity.
  - cbn [Path.is_absolute Path._root Path.parts Path._parts tail].
    unfold Path.Path.
    by rewrite parse_parts_components by apply components_component.
Qed.

Lemma lstrip_components_child path n :
  component n ->
  Path.components (Path.lstrip Path.sep (path ++ Path.sep :: n)) =
  Path.components (Path.lstrip Path.sep path) ++ [n].
Proof.
  intros Hn. induction path as [| x path IH].
  - cbn [app Path.lstrip]. rewrite N.eqb_refl.
    rewrite lstrip_no_sep by apply Hn. by rewrite components_single.
  - cbn [app Path.lstrip]. destruct (x =? Path.sep)%N; [exact IH |].
    exact (components_child (x :: path) n Hn).
Qed.

Lemma but_last_snoc {A} (l : list A) x : Path.but_last (l ++ [x]) = l.
Proof.
  unfold Path.but_last. rewrite length_app. simpl.
  replace (length l + 1 - 1)%nat with (length l) by lia.
  by rewrite take_app_length.
Qed.

(** Under a real root that is anchored, the parent of [path/name] is
    [path]. *)
Lemma fspath_of_child self path n :
  anchored (FuseNotebookDir.root self) ->
  component n ->
  Path.parent (FuseNotebookDir.fspath_of self (path ++ Path.sep :: n)) =
  FuseNotebookDir.fspath_of self path.
Proof.
  intros Hroot Hn. rewrite !fspath_of_parts, lstrip_components_child by done.
  rewrite (assoc_L (++)). unfold Path.parent, Path.is_absolute.
  cbn [Path._root Path._parts]. rewrite but_last_snoc.
  destruct (Path._root (FuseNotebookDir.root self)) as [| r root] eqn:Hr.
  - by rewrite andb_false_r.
  - destruct Hroot as [rest Hrest]; [by rewrite Hr |]. rewrite Hrest.
    rewrite bool_decide_eq_false_2; [done |].
    rewrite !length_app. simpl. lia.
Qed.

Lemma classify_nb w self path key :
  FuseNotebookDir._classify w self path = Ok (Some FuseNotebookDir.nb, key) ->
  let fspath := FuseNotebookDir.fspath_of self path in
  FuseNotebookDir.is_file w fspath = Ok true /\
  Path.suffix fspath = FuseNotebookDir.ipynb /\
  key = Path.to_str fspath.
Proof.
  unfold FuseNotebookDir._classify. cbn zeta.
  destruct (FuseNotebookDir.is_file w (Path.parent _)) as [b |]; [| discriminate].
  destruct (b && _); [discriminate |].
  destruct (FuseNotebookDir.is_dir w _) as [[] |]; try discriminate.
  destruct (FuseNotebookDir.is_file w _) as [[] |]; try discriminate.
  destruct (decide (Path.suffix (FuseNotebookDir.fspath_of self path) =
                    FuseNotebookDir.ipynb)) as [Hsuffix | Hsuffix].
  - rewrite bool_decide_eq_true_2 by done. by intros [= <-].
  - rewrite bool_decide_eq_false_2 by done. discriminate.
Qed.

Lemma classify_child w self path key name :
  anchored (FuseNotebookDir.root self) ->
  component name ->
  FuseNotebookDir._classify w self path = Ok (Some FuseNotebookDir.nb, key) ->
  FuseNotebookDir._classify w self (path ++ Path.sep :: name) =
    Ok (Some FuseNotebookDir.nbcont, key).
Proof.
  intros Hroot Hname Hclass.
  apply classify_nb in Hclass as (Hfile & Hsuffix & ->).
  unfold FuseNotebookDir._classify.
  rewrite fspath_of_child by done.
  rewrite Hfile, Hsuffix. by rewrite bool_decide_eq_true_2.
Qed.

(** X7. What lies directly under a notebook-root is notebook-interior and
    is routed to that notebook: if
    [path] is a notebook-root with the key [key], then [path/name] is
    notebook-interior with the key [key] for every component [name],
    whether the notebook has such a file or not; the real path of
    [path/name] has the real path of [path] for its parent. *)
Theorem classify_child_of_notebook w self path key name :
  anchored (FuseNotebookDir.root self) ->
  component name ->
  FuseNotebookDir._classify w self path = Ok (Some FuseNotebookDir.nb, key) ->
  FuseNotebookDir._classify w self (path ++ Path.sep :: name) =
    Ok (Some FuseNotebookDir.nbcont, key) /\
  Path.parent (FuseNotebookDir.fspath_of self (path ++ Path.sep :: name)) =
    FuseNotebookDir.fspath_of self path.
Proof.
  intros Hroot Hname Hclass. split; [by apply classify_child |].
  by apply fspath_of_child.
Qed.

Lemma classify_child_witness :
  FuseNotebookDir._classify Example.world Example.router
    (lit "/nb.ipynb" ++ Path.sep :: lit "cell0.md") =
    Ok (Some FuseNotebookDir.nbcont, lit "/data/nb.ipynb") /\
  Path.parent (FuseNotebookDir.fspath_of Example.router
                 (lit "/nb.ipynb" ++ Path.sep :: lit "cell0.md")) =
    FuseNotebookDir.fspath_of Example.router (lit "/nb.ipynb").
Proof.
  apply classify_child_of_notebook.
  - intros _. eexists. vm_compute. reflexivity.
  - split; [discriminate |]. split; [discriminate |].
    apply (bool_decide_unpack _). vm_compute. reflexivity.
  - vm_compute. reflexivity.
Defined.

(** ** The states of the router *)

Lemma parse_parts_anchored args root parts :
  Path.parse_parts args = (root, parts) ->
  root <> [] -> exists rest, parts = root :: rest.
Proof.
  revert root parts. induction args as [| part args IH]; intros root parts;
    cbn [Path.parse_parts].
  - by intros [= <- <-].
  - destruct (Path.parse_parts args) as [root' parsed'].
    destruct root' as [| r' root'].
    + destruct part as [| x part]; [by intros [= <- <-] |].
      destruct (Path.splitroot (x :: part)) as [[| r root0] rel];
        intros [= <- <-]; [done | eauto].
    + intros [= <- <-] _. by apply IH.
Qed.

Lemma Path_anchored args : anchored (Path.Path args).
Proof.
  unfold anchored, Path.Path.
  destruct (Path.parse_parts args) as [root parts] eqn:Hparse.
  cbn [Path._root Path._parts]. by eapply parse_parts_anchored.
Qed.

Lemma grown_refl self : grown self self.
Proof. by repeat split. Qed.

Lemma notebook_grown w self key :
  grown self (snd (FuseNotebookDir._notebook w self key)).
Proof.
  unfold FuseNotebookDir._notebook.
  destruct (FuseNotebookDir.notebooks self !! key) as [cached |] eqn:Hcache;
    [apply grown_refl |].
  destruct (FuseNotebook.__init__ w key _) as [new | e]; [| apply grown_refl].
  repeat split. cbn. intros key' projection Hkey'.
  rewrite lookup_insert_ne; [done | congruence].
Qed.

Lemma notebook_cache_ok w self key :
  cache_ok self -> cache_ok (snd (FuseNotebookDir._notebook w self key)).
Proof.
  intros Hok. unfold FuseNotebookDir._notebook.
  destruct (FuseNotebookDir.notebooks self !! key) as [cached |] eqn:Hcache;
    [exact Hok |].
  destruct (FuseNotebook.__init__ w key _) as [new | e] eqn:Hinit; [| exact Hok].
  intros key' projection. cbn. rewrite lookup_insert.
  destruct (decide (key = key')) as [<- | Hne].
  - intros [= <-]. eauto.
  - apply Hok.
Qed.

(** Each operation leaves the router as it was or as [_notebook] left it. *)
Lemma getattr_state w self path :
  snd (FuseNotebookDir.getattr w self path) = self \/
  exists key,
    snd (FuseNotebookDir.getattr w self path) =
    snd (FuseNotebookDir._notebook w self key).
Proof.
  unfold FuseNotebookDir.getattr.
  destruct (FuseNotebookDir._classify w self path) as [[[[] |] key] | e];
    try (by left).
  right. exists key. by destruct (FuseNotebookDir._notebook w self key).
Qed.

Lemma readdir_state w self path :
  snd (FuseNotebookDir.readdir w self path) = self \/
  exists key,
    snd (FuseNotebookDir.readdir w self path) =
    snd (FuseNotebookDir._notebook w self key).
Proof.
  unfold FuseNotebookDir.readdir.
  destruct (FuseNotebookDir._classify w self path) as [[[[] |] key] | e];
    try (by left).
  right. exists key. by destruct (FuseNotebookDir._notebook w self key).
Qed.

Lemma read_state w self path len offset fh :
  snd (FuseNotebookDir.read w self path len offset fh) = self \/
  exists key,
    snd (FuseNotebookDir.read w self path len offset fh) =
    snd (FuseNotebookDir._notebook w self key).
Proof.
  unfold FuseNotebookDir.read.
  destruct (FuseNotebookDir._classify w self path) as [[[[] |] key] | e];
    try (by left).
  right. exists key. by destruct (FuseNotebookDir._notebook w self key).
Qed.

(** X8. No operation of the router evicts or replaces a cached projection,
    or touches the real root or the mode: after [getattr], [readdir] or
    [read], whatever their outcome, every projection that was cached is
    still cached under its key. *)
Theorem cache_only_grows w self path len offset fh key projection :
  FuseNotebookDir.notebooks self !! key = Some projection ->
  let after_getattr := snd (FuseNotebookDir.getattr w self path) in
  let after_readdir := snd (FuseNotebookDir.readdir w self path) in
  let after_read := snd (FuseNotebookDir.read w self path len offset fh) in
  (FuseNotebookDir.notebooks after_getattr !! key = Some projection /\
   FuseNotebookDir.root after_getattr = FuseNotebookDir.root self /\
   FuseNotebookDir.rw after_getattr = FuseNotebookDir.rw self) /\
  (FuseNotebookDir.notebooks after_readdir !! key = Some projection /\
   FuseNotebookDir.root after_readdir = FuseNotebookDir.root self /\
   FuseNotebookDir.rw after_readdir = FuseNotebookDir.rw self) /\
  (FuseNotebookDir.notebooks after_read !! key = Some projection /\
   FuseNotebookDir.root after_read = FuseNotebookDir.root self /\
   FuseNotebookDir.rw after_read = FuseNotebookDir.rw self).
Proof.
  intros Hkey. cbn zeta.
  assert (forall self', grown self self' ->
            FuseNotebookDir.notebooks self' !! key = Some projection /\
            FuseNotebookDir.root self' = FuseNotebookDir.root self /\
            FuseNotebookDir.rw self' = FuseNotebookDir.rw self) as Hgrown.
  { intros self' (Hroot & Hrw & Hcache). auto. }
  split; [| split]; apply Hgrown.
  - destruct (getattr_state w self path) as [-> | [k ->]];
      [apply grown_refl | apply notebook_grown].
  - destruct (readdir_state w self path) as [-> | [k ->]];
      [apply grown_refl | apply notebook_grown].
  - destruct (read_state w self path len offset fh) as [-> | [k ->]];
      [apply grown_refl | apply notebook_grown].
Qed.

Lemma cache_only_grows_witness :
  let self := Example.listed in
  let after_getattr :=
    snd (FuseNotebookDir.getattr Example.world self (lit "/plot.ipynb/cell0.py")) in
  let after_readdir :=
    snd (FuseNotebookDir.readdir Example.world self (lit "/plot.ipynb/cell0.py")) in
  let after_read :=
    snd (FuseNotebookDir.read Example.world self (lit "/plot.ipynb/cell0.py") 10 0 3) in
  (FuseNotebookDir.notebooks after_getattr !! lit "/data/nb.ipynb"
     = Some Example.projection /\
   FuseNotebookDir.root after_getattr = FuseNotebookDir.root self /\
   FuseNotebookDir.rw after_getattr = FuseNotebookDir.rw self) /\
  (FuseNotebookDir.notebooks after_readdir !! lit "/data/nb.ipynb"
     = Some Example.projection /\
   FuseNotebookDir.root after_readdir = FuseNotebookDir.root self /\
   FuseNotebookDir.rw after_readdir = FuseNotebookDir.rw self) /\
  (FuseNotebookDir.notebooks after_read !! lit "/data/nb.ipynb"
     = Some Example.projection /\
   FuseNotebookDir.root after_read = FuseNotebookDir.root self /\
   FuseNotebookDir.rw after_read = FuseNotebookDir.rw self).
Proof.
  apply (cache_only_grows Example.world Example.listed
           (lit "/plot.ipynb/cell0.py") 10 0 3).
  vm_compute. reflexivity.
Defined.

Lemma reachable_state self :
  reachable self ->
  anchored (FuseNotebookDir.root self) /\ cache_ok self.
Proof.
  induction 1 as [realpath root rw self Hinit
                 | w self path _ [Hroot Hok]
                 | w self path _ [Hroot Hok]
                 | w self path len offset fh _ [Hroot Hok]].
  - unfold FuseNotebookDir.__init__ in Hinit.
    destruct (realpath _) as [normed | e]; [| discriminate].
    inversion Hinit; subst. cbn. split; [apply Path_anchored |].
    intros key projection Hkey. cbn in Hkey. by rewrite lookup_empty in Hkey.
  - destruct (getattr_state w self path) as [-> | [k ->]]; [done |].
    split; [| by apply notebook_cache_ok].
    by rewrite (proj1 (notebook_grown w self k)).
  - destruct (readdir_state w self path) as [-> | [k ->]]; [done |].
    split; [| by apply notebook_cache_ok].
    by rewrite (proj1 (notebook_grown w self k)).
  - destruct (read_state w self path len offset fh) as [-> | [k ->]]; [done |].
    split; [| by apply notebook_cache_ok].
    by rewrite (proj1 (notebook_grown w self k)).
Qed.

(** X9. In every state that a router can reach, its real root is a parsed
    path and every projection in its cache is the one that was constructed
    from the path it is filed under, in the mode of the router; so the two
    tables of a cached projection always have the same names. *)
Theorem reachable_invariant self :
  reachable self ->
  anchored (FuseNotebookDir.root self) /\
  cache_ok self /\
  (forall key projection name,
     FuseNotebookDir.notebooks self !! key = Some projection ->
     FuseNotebook.root projection = key /\
     FuseNotebook.rw projection = FuseNotebookDir.rw self /\
     (is_Some (FuseNotebook.fnames projection !! name) <->
      is_Some (FuseNotebook.fdata projection !! name))).
Proof.
  intros Hreach. destruct (reachable_state _ Hreach) as [Hroot Hok].
  split; [exact Hroot |]. split; [exact Hok |].
  intros key projection name Hkey. destruct (Hok _ _ Hkey) as [w Hinit].
  destruct (init_loadnb _ _ _ _ Hinit) as (Hload & _ & Hr & Hrw).
  apply loadnb_aligned in Hload. unfold aligned in Hload. cbn in Hload.
  split; [exact Hr |]. split; [exact Hrw |].
  by rewrite <- !elem_of_dom, Hload.
Qed.

Lemma example_reachable : reachable Example.router.
Proof.
  apply (reach_init (fun p => Ok p) (lit "/data") false). vm_compute. reflexivity.
Defined.

Lemma example_listed :
  FuseNotebookDir.readdir Example.world Example.router (lit "/nb.ipynb") =
  (Ok [lit "."; lit ".."; lit "cell0.md"; lit "cell1.py";
       lit "cell1_out0_stdout.txt"], Example.listed).
Proof. vm_compute. reflexivity. Defined.

Lemma reachable_invariant_witness :
  anchored (FuseNotebookDir.root Example.listed) /\
  cache_ok Example.listed /\
  (forall key projection name,
     FuseNotebookDir.notebooks Example.listed !! key = Some projection ->
     FuseNotebook.root projection = key /\
     FuseNotebook.rw projection = FuseNotebookDir.rw Example.listed /\
     (is_Some (FuseNotebook.fnames projection !! name) <->
      is_Some (FuseNotebook.fdata projection !! name))).
Proof.
  apply reachable_invariant.
  change Example.listed with
    (snd (Ok [lit "."; lit ".."; lit "cell0.md"; lit "cell1.py";
              lit "cell1_out0_stdout.txt"], Example.listed)).
  rewrite <- example_listed. apply reach_readdir, example_reachable.
Defined.

(** ** From the listing of a notebook to its files *)

Lemma notebook_ok_cached w self key projection self' :
  FuseNotebookDir._notebook w self key = (Ok projection, self') ->
  FuseNotebookDir.notebooks self' !! key = Some projection.
Proof.
  unfold FuseNotebookDir._notebook.
  destruct (FuseNotebookDir.notebooks self !! key) as [cached |] eqn:Hcache.
  - by intros [= <- <-].
  - destruct (FuseNotebook.__init__ w key _) as [new | e]; [| discriminate].
    intros [= <- <-]. cbn. apply lookup_insert_eq.
Qed.

Lemma notebook_hit w self key projection :
  FuseNotebookDir.notebooks self !! key = Some projection ->
  FuseNotebookDir._notebook w self key = (Ok projection, self).
Proof. intros Hkey. unfold FuseNotebookDir._notebook. by rewrite Hkey. Qed.

Lemma classify_same_root w self self' path :
  FuseNotebookDir.root self' = FuseNotebookDir.root self ->
  FuseNotebookDir._classify w self' path = FuseNotebookDir._classify w self path.
Proof.
  intros Hroot. unfold FuseNotebookDir._classify, FuseNotebookDir.fspath_of.
  by rewrite Hroot.
Qed.

Lemma readdir_names nb path name :
  name ∈ FuseNotebook.readdir nb path ->
  name <> lit "." -> name <> lit ".." ->
  is_Some (FuseNotebook.fnames nb !! name).
Proof.
  unfold FuseNotebook.readdir. intros Hin Hdot Hdots.
  apply elem_of_app in Hin as [Hin | Hin].
  - apply elem_of_cons in Hin as [-> | Hin]; [done |].
    by apply list_elem_of_singleton in Hin.
  - rewrite sorted_perm, elem_of_elements in Hin. by apply elem_of_dom.
Qed.

(** X10. What the listing of a notebook shows can be examined and read.
    Let the router be in a state it can reach and [path] be a
    notebook-root whose listing succeeds.  Then for every entry of the
    listing, [.] and [..] apart, that holds no separator, [getattr] of
    [path/entry] returns attributes, and reading from offset 0 as many
    bytes as their size says returns the content of the entry, all through
    the projection that the listing has cached: the router does not change
    any more. *)
Theorem listed_entries_can_be_read w self path key names self1 name fh :
  reachable self ->
  FuseNotebookDir._classify w self path = Ok (Some FuseNotebookDir.nb, key) ->
  FuseNotebookDir.readdir w self path = (Ok names, self1) ->
  name ∈ names -> name <> lit "." -> name <> lit ".." -> Path.sep ∉ name ->
  exists projection attrs content,
    FuseNotebookDir.notebooks self1 !! key = Some projection /\
    FuseNotebook.fdata projection !! name = Some content /\
    FuseNotebookDir.getattr w self1 (path ++ Path.sep :: name)
      = (Ok attrs, self1) /\
    st_size attrs = Z.of_nat (length content) /\
    FuseNotebookDir.read w self1 (path ++ Path.sep :: name) (st_size attrs) 0 fh
      = (Ok (Some content), self1).
Proof.
  intros Hreach Hpath Hreaddir Hin Hdot Hdots Hsep.
  destruct (reachable_state _ Hreach) as [Hroot Hok].
  unfold FuseNotebookDir.readdir in Hreaddir. rewrite Hpath in Hreaddir.
  destruct (FuseNotebookDir._notebook w self key) as [r self'] eqn:Hnb.
  destruct r as [projection | e]; [| discriminate].
  cbn in Hreaddir. inversion Hreaddir; subst names self1. clear Hreaddir.
  pose proof (notebook_ok_cached _ _ _ _ _ Hnb) as Hcached.
  assert (self' = snd (FuseNotebookDir._notebook w self key)) as Hself'
    by (by rewrite Hnb).
  assert (cache_ok self') as Hok' by (subst self'; by apply notebook_cache_ok).
  assert (FuseNotebookDir.root self' = FuseNotebookDir.root self) as Hroot'
    by (subst self'; apply notebook_grown).
  destruct (Hok' _ _ Hcached) as [w0 Hinit].
  pose proof (readdir_names projection path name Hin Hdot Hdots) as Hname.
  pose proof (init_component _ _ _ _ _ Hinit Hname Hsep) as Hcomp.
  destruct (init_content _ _ _ _ _ Hinit Hname) as [content Hcontent].
  assert (FuseNotebookDir._classify w self' (path ++ Path.sep :: name) =
          Ok (Some FuseNotebookDir.nbcont, key)) as Hchild.
  { rewrite (classify_same_root _ self self') by done.
    by apply classify_child. }
  pose proof (conj Hname Hcontent) as [[entry Hentry] _].
  eexists projection, _, content.
  split; [exact Hcached |]. split; [exact Hcontent |].
  unfold FuseNotebookDir.getattr, FuseNotebookDir.read.
  rewrite Hchild, (notebook_hit _ _ _ _ Hcached). cbn.
  unfold FuseNotebook.getattr, FuseNotebook.read.
  rewrite name_of_child, Hentry, Hcontent by done. cbn.
  split; [reflexivity |]. split; [reflexivity |].
  cbn [st_size]. by rewrite py_slice_whole.
Qed.

Lemma listed_entries_witness :
  exists projection attrs content,
    FuseNotebookDir.notebooks Example.listed !! lit "/data/nb.ipynb"
      = Some projection /\
    FuseNotebook.fdata projection !! lit "cell1.py" = Some content /\
    FuseNotebookDir.getattr Example.world Example.listed
      (lit "/nb.ipynb" ++ Path.sep :: lit "cell1.py") = (Ok attrs, Example.listed) /\
    st_size attrs = Z.of_nat (length content) /\
    FuseNotebookDir.read Example.world Example.listed
      (lit "/nb.ipynb" ++ Path.sep :: lit "cell1.py") (st_size attrs) 0 3
      = (Ok (Some content), Example.listed).
Proof.
  apply (listed_entries_can_be_read Example.world Example.router (lit "/nb.ipynb")
           (lit "/data/nb.ipynb")
           [lit "."; lit ".."; lit "cell0.md"; lit "cell1.py";
            lit "cell1_out0_stdout.txt"]).
  - apply example_reachable.
  - vm_compute. reflexivity.
  - vm_compute. reflexivity.
  - apply (bool_decide_unpack _). vm_compute. reflexivity.
  - discriminate.
  - discriminate.
  - apply (bool_decide_unpack _). vm_compute. reflexivity.
Defined.

(** ** Outside the notebooks *)

(** X11. [read] of the router raises nothing where it has no branch: for a
    path classified as a real directory, as a notebook-root or as absent
    it returns [None], not bytes and not an error, and leaves the router
    as it was. *)
Theorem read_elsewhere_is_None w self path type key len offset fh :
  FuseNotebookDir._classify w self path = Ok (type, key) ->
  type <> Some FuseNotebookDir.nbcont ->
  type <> Some FuseNotebookDir.file ->
  FuseNotebookDir.read w self path len offset fh = (Ok None, self).
Proof.
  unfold FuseNotebookDir.read. intros -> Hinterior Hfile.
  destruct type as [[] |]; congruence.
Qed.

Lemma read_elsewhere_witness :
  FuseNotebookDir.read Example.world Example.router (lit "/subdir") 10 0 3
    = (Ok None, Example.router) /\
  FuseNotebookDir.read Example.world Example.router (lit "/nb.ipynb") 10 0 3
    = (Ok None, Example.router) /\
  FuseNotebookDir.read Example.world Example.router (lit "/nowhere") 10 0 3
    = (Ok None, Example.router).
Proof.
  split; [| split].
  - apply (read_elsewhere_is_None _ _ _ (Some FuseNotebookDir.dir)
             (lit "/data/subdir")); [vm_compute; reflexivity | discriminate ..].
  - apply (read_elsewhere_is_None _ _ _ (Some FuseNotebookDir.nb)
             (lit "/data/nb.ipynb")); [vm_compute; reflexivity | discriminate ..].
  - apply (read_elsewhere_is_None _ _ _ None (lit "/data/nowhere"));
      [vm_compute; reflexivity | discriminate ..].
Defined.

(** X12. Outside the notebooks [getattr] of the router hands on what the
    real file system says: for a real directory or a real file, what
    [lstat] of the real path gives, its attributes unchanged or its
    exception; for a path that is absent, [FuseOSError(ENOENT)]; and where
    the path cannot be classified, the exception of the examination.  In
    each case the router is left as it was and no notebook is opened. *)
Theorem getattr_outside_notebooks w self path :
  (forall type key,
     FuseNotebookDir._classify w self path = Ok (type, key) ->
     type = Some FuseNotebookDir.dir \/ type = Some FuseNotebookDir.file ->
     FuseNotebookDir.getattr w self path = (FuseNotebookDir.lstat w key, self)) /\
  (forall key,
     FuseNotebookDir._classify w self path = Ok (None, key) ->
     FuseNotebookDir.getattr w self path = (Raise (FuseOSError ENOENT), self)) /\
  (forall e,
     FuseNotebookDir._classify w self path = Raise e ->
     FuseNotebookDir.getattr w self path = (Raise e, self)).
Proof.
  unfold FuseNotebookDir.getattr. split; [| split].
  - intros type key -> [-> | ->]; by destruct (FuseNotebookDir.lstat w key) as [[] |].
  - by intros key ->.
  - by intros e ->.
Qed.

Lemma getattr_outside_witness :
  FuseNotebookDir.getattr Example.world Example.router (lit "/notes.txt") =
    (FuseNotebookDir.lstat Example.world (lit "/data/notes.txt"), Example.router) /\
  FuseNotebookDir.getattr Example.world Example.router (lit "/nowhere") =
    (Raise (FuseOSError ENOENT), Example.router) /\
  FuseNotebookDir.getattr Example.world Example.router (lit "/locked/x") =
    (Raise (OSError Example.EACCES), Example.router).
Proof.
  destruct (getattr_outside_notebooks Example.world Example.router (lit "/notes.txt"))
    as (Hreal & _ & _).
  destruct (getattr_outside_notebooks Example.world Example.router (lit "/nowhere"))
    as (_ & Habsent & _).
  destruct (getattr_outside_notebooks Example.world Example.router (lit "/locked/x"))
    as (_ & _ & Herror).
  split; [| split].
  - apply (Hreal (Some FuseNotebookDir.file) (lit "/data/notes.txt"));
      [vm_compute; reflexivity | by right].
  - apply (Habsent (lit "/data/nowhere")). vm_compute. reflexivity.
  - apply Herror. vm_compute. reflexivity.
Defined.

(** ** Documents that cannot be projected *)

(** X13. A notebook whose metadata names no file extension cannot be
    opened, code cells or not: with the file there and decoded,
    [_notebook] raises [AttributeError] and caches nothing. *)
Theorem no_extension_no_notebook w self key st nd :
  FuseNotebookDir.notebooks self !! key = None ->
  FuseNotebookDir.lstat w key = Ok st ->
  nb_read w key = Ok nd ->
  file_extension nd = None ->
  FuseNotebookDir._notebook w self key = (Raise AttributeError, self).
Proof.
  intros Hfresh Hstat Hread Hext.
  unfold FuseNotebookDir._notebook, FuseNotebook.__init__, FuseNotebook.loadnb.
  unfold FuseNotebookDir.lstat in Hstat.
  rewrite Hfresh, Hstat. cbn. rewrite Hread. cbn. by rewrite Hext.
Qed.

Lemma no_extension_witness :
  FuseNotebookDir._notebook Example.bare Example.listed (lit "/data/broken.ipynb")
  = (Raise AttributeError, Example.listed).
Proof.
  apply (no_extension_no_notebook Example.bare Example.listed
           (lit "/data/broken.ipynb") Example.file_stat Example.bare_notebook);
    vm_compute; reflexivity.
Defined.

(** ** The attributes of the files of a notebook *)

(** X14. Every file of a projection carries the attributes that the
    notebook file had when the projection was constructed: mode, owner,
    group, link count and the three times are those of [lstat] of the
    notebook, whatever the file; only the size is its own. *)
Theorem files_share_notebook_attributes w root rw nb :
  FuseNotebook.__init__ w root rw = Ok nb ->
  exists st,
    os_lstat w (Path.to_str (Path.Path [root])) = Ok st /\
    forall path attrs,
      FuseNotebook.getattr nb path = Ok attrs ->
      st_mode attrs = st_mode st /\ st_nlink attrs = st_nlink st /\
      st_uid attrs = st_uid st /\ st_gid attrs = st_gid st /\
      st_atime attrs = st_atime st /\ st_ctime attrs = st_ctime st /\
      st_mtime attrs = st_mtime st.
Proof.
  unfold FuseNotebook.__init__. intros Hinit.
  destruct (os_lstat w _) as [st | e]; [| discriminate]. cbn in Hinit.
  destruct (nb_read w root) as [nd | e]; [| discriminate]. cbn in Hinit.
  destruct (FuseNotebook.loadnb w nd) as [tb | e]; [| discriminate].
  inversion Hinit; subst. exists st. split; [reflexivity |].
  intros path attrs. unfold FuseNotebook.getattr. cbn.
  destruct (_ !! _); [| discriminate].
  destruct (_ !! _); [| discriminate].
  by intros [= <-].
Qed.

Lemma files_share_attributes_witness :
  exists st,
    os_lstat Example.world (Path.to_str (Path.Path [lit "/data/nb.ipynb"])) = Ok st /\
    forall path attrs,
      FuseNotebook.getattr Example.projection path = Ok attrs ->
      st_mode attrs = st_mode st /\ st_nlink attrs = st_nlink st /\
      st_uid attrs = st_uid st /\ st_gid attrs = st_gid st /\
      st_atime attrs = st_atime st /\ st_ctime attrs = st_ctime st /\
      st_mtime attrs = st_mtime st.
Proof.
  apply (files_share_notebook_attributes Example.world (lit "/data/nb.ipynb") false).
  vm_compute. reflexivity.
Defined.

(** ** Names of different cells *)

Lemma lit_inj s1 s2 : lit s1 = lit s2 -> s1 = s2.
Proof.
  unfold lit. intros Heq.
  rewrite <- (string_of_list_ascii_of_string s1),
          <- (string_of_list_ascii_of_string s2).
  f_equal. revert Heq.
  generalize (list_ascii_of_string s1) (list_ascii_of_string s2).
  induction l as [| a l IH]; intros [| b l']; cbn; try done.
  intros [= Hab Hl]. f_equal; [| by apply IH].
  by rewrite <- (ascii_N_embedding a), <- (ascii_N_embedding b), Hab.
Qed.

Lemma str_of_nat_inj i j : str_of_nat i = str_of_nat j -> i = j.
Proof.
  unfold str_of_nat. intros Heq. apply lit_inj in Heq.
  apply (f_equal NilEmpty.uint_of_string) in Heq.
  rewrite !NilEmpty.usu in Heq. injection Heq as Heq.
  by apply Unsigned.to_uint_inj.
Qed.

(** X15. The files of two cells of the same kind never take each other's
    name: for markdown cells, and for code cells with the extension of the
    document, different positions give different names. *)
Theorem cell_names_differ i j ext :
  i <> j ->
  lit "cell" ++ str_of_nat i ++ lit ".md" <> lit "cell" ++ str_of_nat j ++ lit ".md" /\
  lit "cell" ++ str_of_nat i ++ ext <> lit "cell" ++ str_of_nat j ++ ext.
Proof.
  intros Hij.
  assert (forall suffix,
            lit "cell" ++ str_of_nat i ++ suffix <>
            lit "cell" ++ str_of_nat j ++ suffix) as Hdiffer.
  { intros suffix Heq. apply app_inv_head, app_inv_tail in Heq.
    by apply Hij, str_of_nat_inj. }
  split; apply Hdiffer.
Qed.

Lemma cell_names_differ_witness :
  lit "cell" ++ str_of_nat 1 ++ lit ".md" <> lit "cell" ++ str_of_nat 10 ++ lit ".md" /\
  lit "cell" ++ str_of_nat 1 ++ lit ".py" <> lit "cell" ++ str_of_nat 10 ++ lit ".py".
Proof. apply (cell_names_differ 1 10 (lit ".py")). lia. Defined.
